(** * MESMTF: the malaria / typhoid expert system of the diagnosis controller

    A shallow embedding of [backend/controllers/diagnosisController.js]
    (the symptom catalogs, [assessMalariaRisk], [assessTyphoidRisk],
    [getExpertSystemAssessment], [createDiagnosis], [updateDiagnosis],
    [getDiagnosis], the filter of [getDiagnoses]), of the diagnosis router, of
    the authentication middleware and of the identifier hook of the diagnosis
    model.

    The controller is duck-typed JavaScript over a parsed JSON body, so the
    embedding works on JSON values: property reads, optional chaining, the
    [TypeError]s of reading through [undefined], object spread. *)

From Stdlib Require Import String Ascii ZArith List.
From stdpp Require Import gmap strings list fin_maps pretty.

Local Open Scope string_scope.
Local Open Scope nat_scope.
Local Set Warnings "-register-all".

(** ** JavaScript values, as [JSON.parse] produces them *)

Module JS.

(** A string is its sequence of code units; every literal of the controller
    is ASCII.  The payload of a number is never inspected by the controller;
    printing a number is left to the language ([numberToString] below). *)
Inductive Value : Type :=
  | JUndefined
  | JNull
  | JBool (b : bool)
  | JNum (n : Z)
  | JStr (s : string)
  | JArr (xs : list Value)
  | JObj (props : gmap string Value).

Inductive Error : Type :=
  | TypeError.

(** A computation either completes with a value or throws. *)
Inductive Result (A : Type) : Type :=
  | Ok (a : A)
  | Throw (e : Error).
Global Arguments Ok {A} a.
Global Arguments Throw {A} e.

Global Instance Result_ret : MRet Result := λ A a, Ok a.
Global Instance Result_bind : MBind Result := λ A B f m,
  match m with
  | Ok a => f a
  | Throw e => Throw e
  end.
Global Instance Result_fmap : FMap Result := λ A B f m,
  match m with
  | Ok a => Ok (f a)
  | Throw e => Throw e
  end.

(** [!v]: falsy values. No number payload is a NaN here. *)
Definition falsy (v : Value) : bool :=
  match v with
  | JUndefined | JNull => true
  | JBool b => negb b
  | JNum n => (n =? 0)%Z
  | JStr s => bool_decide (s = "")
  | JArr _ | JObj _ => false
  end.

Definition isArray (v : Value) : bool :=
  match v with
  | JArr _ => true
  | _ => false
  end.

(** [v.k] for the property names the controller reads ([symptoms],
    [testResults], [malaria], [typhoid], [rapidTest], [microscopy],
    [widalTest], [bloodCulture], [symptom], [malariaAssessment],
    [typhoidAssessment], [patient], [appointment], [id]): none of them is
    inherited from a prototype or is an index, so only an object can hold
    one, and reading through [undefined] or [null] throws. *)
Definition getProp (v : Value) (k : string) : Result Value :=
  match v with
  | JUndefined | JNull => Throw TypeError
  | JObj props => Ok (default JUndefined (props !! k))
  | _ => Ok JUndefined
  end.

(** [v?.k] *)
Definition optChain (v : Value) (k : string) : Value :=
  match v with
  | JObj props => default JUndefined (props !! k)
  | _ => JUndefined
  end.

(** [v === 'lit'] for a string literal *)
Definition strictEqStr (v : Value) (lit : string) : bool :=
  match v with
  | JStr s => bool_decide (s = lit)
  | _ => false
  end.

(** [catalog.includes(x)] on an array of strings *)
Fixpoint includes (catalog : list string) (x : string) : bool :=
  match catalog with
  | [] => false
  | c :: rest => if bool_decide (c = x) then true else includes rest x
  end.

(** [xs.filter(p)] with a callback that may throw: elements are visited in
    order and the first exception aborts the call. *)
Fixpoint filterM {A} (p : A → Result bool) (xs : list A) : Result (list A) :=
  match xs with
  | [] => Ok []
  | x :: rest =>
      b ← p x;
      kept ← filterM p rest;
      mret (if b : bool then x :: kept else kept)
  end.

(** [xs.map(f)] with a callback that may throw. *)
Fixpoint traverse {A B} (f : A → Result B) (xs : list A) : Result (list B) :=
  match xs with
  | [] => Ok []
  | x :: rest =>
      y ← f x;
      ys ← traverse f rest;
      mret (y :: ys)
  end.

(** The own enumerable properties copied by an object spread [{...v}]:
    those of an object, the indices of an array or of a string, nothing for
    the other primitives, [null] and [undefined]. *)
Definition indexed {A} (f : A → Value) (xs : list A) : gmap string Value :=
  list_to_map (imap (λ i x, (pretty i, f x)) xs).

Definition ownProps (v : Value) : gmap string Value :=
  match v with
  | JObj props => props
  | JArr xs => indexed id xs
  | JStr s => indexed (λ c, JStr (String c EmptyString)) (list_ascii_of_string s)
  | _ => ∅
  end.

End JS.
Export JS.

(** ** The symptom catalogs *)

Definition malariaSymptoms : list string :=
  [ "fever"; "chills"; "headache"; "muscle aches"; "fatigue"; "nausea"; "vomiting";
    "diarrhea"; "abdominal pain"; "sweating"; "shivering" ].

Definition typhoidSymptoms : list string :=
  [ "fever"; "headache"; "weakness"; "stomach pain"; "constipation"; "diarrhea";
    "loss of appetite"; "rash"; "enlarged spleen"; "rose spots"; "dry cough" ].

(** ** Requests and responses *)

(** What [assessMalariaRisk] and [assessTyphoidRisk] return. *)
Record Assessment : Type := {
  riskLevel : string;
  score : nat
}.

(** One disease entry of the standalone endpoint's [data]. *)
Record DiseaseResult : Type := {
  res_riskLevel : string;
  res_score : nat;
  res_matchingSymptoms : list Value;
  res_recommendation : string
}.

(** One disease entry of [expertSystemRecommendations]. *)
Record Recommendation : Type := {
  rec_riskLevel : string;
  rec_score : nat;
  rec_recommendation : string
}.

(** An entry of [validationResult(req).array()]. *)
Record ValidationError : Type := {
  ve_path : string;
  ve_msg : string
}.

(** The parts of the Express request the handlers read. [validationErrors]
    is what [validationResult(req)] holds once the validation chain of the
    route has run; [user] is set by the [protect] middleware. *)
Record Request : Type := {
  body : Value;
  params_id : string;
  user : Value;
  validationErrors : list ValidationError
}.

Inductive ResponseBody : Type :=
  | Failure (error : string) (details : option (list ValidationError))
  | Assessed (malaria typhoid : DiseaseResult)
  | Created (data : gmap string Value) (malaria typhoid : Recommendation)
  | Updated (data : gmap string Value).

(** What a handler can catch: an error raised by its own code, or a promise
    of the store that is rejected (schema validation, a cast, a query that
    fails). *)
Inductive Caught : Type :=
  | Raised (e : Error)
  | Rejected.

(** [res.status(code).json(payload)], or [next(error)] from the [catch]. *)
Inductive Response : Type :=
  | Json (status : nat) (payload : ResponseBody)
  | Next (e : Caught).

(** [try { ... } catch (error) { next(error) }] *)
Definition try_catch_next (r : Result Response) : Response :=
  match r with
  | Ok resp => resp
  | Throw e => Next (Raised e)
  end.

(** The recommendation ternaries of both handlers. *)
Definition malariaRecommendation (riskLevel : string) : string :=
  if bool_decide (riskLevel = "high") then
    "Immediate malaria testing and treatment recommended"
  else if bool_decide (riskLevel = "moderate") then
    "Consider malaria testing"
  else "Low malaria risk".

Definition typhoidRecommendation (riskLevel : string) : string :=
  if bool_decide (riskLevel = "high") then
    "Immediate typhoid testing and treatment recommended"
  else if bool_decide (riskLevel = "moderate") then
    "Consider typhoid testing"
  else "Low typhoid risk".

(** ** The scorers and the standalone endpoint *)

Section Scorer.

(** [String.prototype.toLowerCase], a built-in of the language. *)
Variable toLowerCase : string → string.

(** [s => catalog.includes(s.symptom.toLowerCase())]: only a string has a
    [toLowerCase] method. *)
Definition matchesCatalog (catalog : list string) (s : Value) : Result bool :=
  name ← getProp s "symptom";
  match name with
  | JStr n => mret (includes catalog (toLowerCase n))
  | _ => Throw TypeError
  end.

(** [symptoms.filter(p)]: only an array has a [filter] method. *)
Definition arrayFilter (symptoms : Value) (p : Value → Result bool) : Result (list Value) :=
  match symptoms with
  | JArr xs => filterM p xs
  | _ => Throw TypeError
  end.

Definition assessMalariaRisk (symptoms testResults : Value) : Result Assessment :=
  matched ← arrayFilter symptoms (matchesCatalog malariaSymptoms);
  let malariaScore := length matched in
  let riskLevel :=
    if (5 <=? malariaScore)%nat
       || strictEqStr (optChain testResults "rapidTest") "positive"
       || strictEqStr (optChain testResults "microscopy") "positive"
    then "high"
    else if (3 <=? malariaScore)%nat then "moderate"
    else "low" in
  mret {| riskLevel := riskLevel; score := malariaScore |}.

Definition assessTyphoidRisk (symptoms testResults : Value) : Result Assessment :=
  matched ← arrayFilter symptoms (matchesCatalog typhoidSymptoms);
  let typhoidScore := length matched in
  let riskLevel :=
    if (5 <=? typhoidScore)%nat
       || strictEqStr (optChain testResults "widalTest") "positive"
       || strictEqStr (optChain testResults "bloodCulture") "positive"
    then "high"
    else if (3 <=? typhoidScore)%nat then "moderate"
    else "low" in
  mret {| riskLevel := riskLevel; score := typhoidScore |}.

(** [symptoms.length === 0], evaluated only once [symptoms] is an array. *)
Definition lengthIsZero (v : Value) : bool :=
  match v with
  | JArr [] => true
  | _ => false
  end.

(** [symptoms.filter(s => catalog.includes(...)).map(s => s.symptom)] *)
Definition matchingSymptoms (catalog : list string) (symptoms : Value) : Result (list Value) :=
  matched ← arrayFilter symptoms (matchesCatalog catalog);
  traverse (λ s, getProp s "symptom") matched.

Definition getExpertSystemAssessment (req : Request) : Response :=
  try_catch_next (
    symptoms ← getProp (body req) "symptoms";
    testResults ← getProp (body req) "testResults";
    if falsy symptoms || negb (isArray symptoms) || lengthIsZero symptoms then
      mret (Json 400 (Failure "Symptoms array is required" None))
    else
      malariaAssessment ← assessMalariaRisk symptoms (optChain testResults "malaria");
      typhoidAssessment ← assessTyphoidRisk symptoms (optChain testResults "typhoid");
      malariaMatching ← matchingSymptoms malariaSymptoms symptoms;
      typhoidMatching ← matchingSymptoms typhoidSymptoms symptoms;
      mret (Json 200 (Assessed
        {| res_riskLevel := riskLevel malariaAssessment;
           res_score := score malariaAssessment;
           res_matchingSymptoms := malariaMatching;
           res_recommendation := malariaRecommendation (riskLevel malariaAssessment) |}
        {| res_riskLevel := riskLevel typhoidAssessment;
           res_score := score typhoidAssessment;
           res_matchingSymptoms := typhoidMatching;
           res_recommendation := typhoidRecommendation (riskLevel typhoidAssessment) |}))).

End Scorer.

(** ** The document store and the diagnosis handlers *)

(** The Mongoose models are collaborators outside the repository's logic:
    a collection is the set of its documents' identifiers (patients,
    appointments) or a map from identifier to the document's fields
    (diagnoses). A reference is populated when a document is shown; what it
    resolves to is the store's answer. *)
Record Store : Type := {
  patients : gset string;
  appointments : gset string;
  diagnoses : gmap string (gmap string Value)
}.

(** [Model.findById(id)] is truthy when a document has this identifier; the
    validation chain of the route lets only identifier strings through. *)
Definition findById (collection : gset string) (id : Value) : bool :=
  match id with
  | JStr i => bool_decide (i ∈ collection)
  | _ => false
  end.

(** A field name of an update that is neither an operator ([$set], ...) nor
    a dotted path into a sub-document. *)
Definition plainFieldName (k : string) : bool :=
  match k with
  | String "$" _ => false
  | _ => forallb (λ c, negb (Ascii.eqb c ".")) (list_ascii_of_string k)
  end.

(** The simplest update of a stored document: every top-level field of the
    update body replaces the stored field of that name. *)
Definition setFields (update : Value) (doc : gmap string Value)
    : option (gmap string Value) :=
  match update with
  | JObj props => Some (props ∪ doc)
  | _ => Some doc
  end.

(** The references that both writing handlers populate, with the fields
    they select, and those that [getDiagnosis] populates. *)
Definition populatedOnWrite : list (string * string) :=
  [ ("patient", "patientId firstName lastName");
    ("doctor", "name profile.specialization");
    ("appointment", "appointmentId appointmentDate") ].

Definition populatedOnRead : list (string * string) :=
  [ ("patient", "patientId firstName lastName dateOfBirth gender");
    ("doctor", "name profile.specialization");
    ("appointment", "appointmentId appointmentDate") ].

Section Handlers.

Variable toLowerCase : string → string.

(** Whether the validators of [diagnosisSchema] let a new document through. *)
Variable schemaAccepts : gmap string Value → bool.

(** [resolve path select ref]: what a document shows at [path] once the
    reference [ref] stored there is populated with the fields of [select]
    ([null] when nothing is referenced); [None] when the query for it fails. *)
Variable resolve : string → string → Value → option Value.

(** The cast of the route parameter [id] to a document identifier; a string
    that is no identifier ([None]) rejects the query. *)
Variable castObjectId : string → option string.

(** Whether the cast of an update and the update validators ([runValidators])
    let it through; both run before the store is asked. *)
Variable updateAccepts : Value → bool.

(** How the store combines an update body with a stored document, unless it
    refuses the update. *)
Variable applyUpdate : Value → gmap string Value → option (gmap string Value).

(** [doc.populate(paths)], and [.populate(paths)] on a query that found
    [doc]: each reference that the document has is replaced by what it
    resolves to; the promise is rejected when a query fails. *)
Fixpoint populate (paths : list (string * string)) (doc : gmap string Value)
    : option (gmap string Value) :=
  match paths with
  | [] => Some doc
  | (path, select) :: rest =>
      match doc !! path with
      | None => populate rest doc
      | Some ref =>
          shown ← resolve path select ref;
          populate rest (<[path := shown]> doc)
      end
  end.

(** [Diagnosis.create(data)]: the document is stored as it is given, under
    the identifier [newId] that the driver generates for it, unless the
    schema rejects it. *)
Definition Diagnosis_create (newId : string) (data : gmap string Value) (st : Store)
    : option Store :=
  if schemaAccepts data then
    Some {| patients := patients st;
            appointments := appointments st;
            diagnoses := <[newId := data]> (diagnoses st) |}
  else None.

(** [Diagnosis.findByIdAndUpdate(id, update, { new: true, runValidators:
    true })]: rejected when the identifier or the update does not pass, else
    [null] when no document has the identifier, else the updated document. *)
Definition Diagnosis_findByIdAndUpdate (id : string) (update : Value) (st : Store)
    : option (Store * option (gmap string Value)) :=
  key ← castObjectId id;
  if updateAccepts update then
    match diagnoses st !! key with
    | None => Some (st, None)
    | Some doc =>
        doc' ← applyUpdate update doc;
        Some ({| patients := patients st;
                 appointments := appointments st;
                 diagnoses := <[key := doc']> (diagnoses st) |}, Some doc')
    end
  else None.

(** The object literal [diagnosisData] of [createDiagnosis]. *)
Definition diagnosisData (reqBody doctor bodyMalaria bodyTyphoid : Value)
    (malariaAssessment typhoidAssessment : Assessment) : gmap string Value :=
  <["typhoidAssessment" :=
      JObj (<["riskLevel" := JStr (riskLevel typhoidAssessment)]> (ownProps bodyTyphoid))]>
  (<["malariaAssessment" :=
      JObj (<["riskLevel" := JStr (riskLevel malariaAssessment)]> (ownProps bodyMalaria))]>
  (<["doctor" := doctor]> (ownProps reqBody))).

(** The handler runs against the store; an error raised by the handler's own
    code comes before the store is written: it reaches [next] and leaves the
    store as it was. *)
Definition withStore (st : Store) (r : Result (Store * Response)) : Store * Response :=
  match r with
  | Ok out => out
  | Throw e => (st, Next (Raised e))
  end.

Definition createDiagnosis (newId : string) (req : Request) (st : Store) : Store * Response :=
  withStore st (
    if negb (bool_decide (validationErrors req = [])) then
      mret (st, Json 400 (Failure "Validation failed" (Some (validationErrors req))))
    else
      patient ← getProp (body req) "patient";
      appointment ← getProp (body req) "appointment";
      symptoms ← getProp (body req) "symptoms";
      if negb (findById (patients st) patient) then
        mret (st, Json 404 (Failure "Patient not found" None))
      else if negb (findById (appointments st) appointment) then
        mret (st, Json 404 (Failure "Appointment not found" None))
      else
        bodyMalaria ← getProp (body req) "malariaAssessment";
        malariaAssessment ←
          assessMalariaRisk toLowerCase symptoms (optChain bodyMalaria "testResults");
        bodyTyphoid ← getProp (body req) "typhoidAssessment";
        typhoidAssessment ←
          assessTyphoidRisk toLowerCase symptoms (optChain bodyTyphoid "testResults");
        doctor ← getProp (user req) "id";
        let data :=
          diagnosisData (body req) doctor bodyMalaria bodyTyphoid
            malariaAssessment typhoidAssessment in
        match Diagnosis_create newId data st with
        | None => mret (st, Next Rejected)
        | Some st' =>
            match populate populatedOnWrite data with
            | None => mret (st', Next Rejected)
            | Some diagnosis =>
                mret (st',
                  Json 201 (Created diagnosis
                    {| rec_riskLevel := riskLevel malariaAssessment;
                       rec_score := score malariaAssessment;
                       rec_recommendation :=
                         malariaRecommendation (riskLevel malariaAssessment) |}
                    {| rec_riskLevel := riskLevel typhoidAssessment;
                       rec_score := score typhoidAssessment;
                       rec_recommendation :=
                         typhoidRecommendation (riskLevel typhoidAssessment) |}))
            end
        end).

Definition updateDiagnosis (req : Request) (st : Store) : Store * Response :=
  if negb (bool_decide (validationErrors req = [])) then
    (st, Json 400 (Failure "Validation failed" (Some (validationErrors req))))
  else
    match Diagnosis_findByIdAndUpdate (params_id req) (body req) st with
    | None => (st, Next Rejected)
    | Some (st', None) => (st', Json 404 (Failure "Diagnosis not found" None))
    | Some (st', Some updated) =>
        match populate populatedOnWrite updated with
        | None => (st', Next Rejected)
        | Some diagnosis => (st', Json 200 (Updated diagnosis))
        end
    end.

(** [getDiagnosis]: a found diagnosis is sent as [{ success: true, data }],
    the payload that a successful update has too. *)
Definition getDiagnosis (req : Request) (st : Store) : Response :=
  match castObjectId (params_id req) with
  | None => Next Rejected
  | Some key =>
      match diagnoses st !! key with
      | None => Json 404 (Failure "Diagnosis not found" None)
      | Some doc =>
          match populate populatedOnRead doc with
          | None => Next Rejected
          | Some diagnosis => Json 200 (Updated diagnosis)
          end
      end
  end.

End Handlers.

(** ** [toLowerCase] on strings of code units below 256

    In that range the Unicode lower-case mapping acts unit by unit: the
    letters A-Z and the accented capitals U+00C0-U+00DE (U+00D7, the
    multiplication sign, apart) move up by 32, everything else stays. *)

Definition toLowerCase_unit (c : ascii) : ascii :=
  let n := nat_of_ascii c in
  if ((65 <=? n) && (n <=? 90)
      || (192 <=? n) && (n <=? 222) && negb (n =? 215))%nat
  then ascii_of_nat (n + 32)
  else c.

Fixpoint toLowerCase_latin1 (s : string) : string :=
  match s with
  | EmptyString => EmptyString
  | String c rest => String (toLowerCase_unit c) (toLowerCase_latin1 rest)
  end.

(** ** Symptom reports

    A well-formed entry of the [symptoms] array is an object whose [symptom]
    is a string; [fields] holds whatever else the caller sent with it
    ([severity], [duration], [notes], ...). *)

Record SymptomEntry : Type := {
  name : string;
  fields : gmap string Value
}.

Definition entry (e : SymptomEntry) : Value :=
  JObj (<["symptom" := JStr (name e)]> (fields e)).

Definition report (es : list SymptomEntry) : Value :=
  JArr (entry <$> es).

(** The two diseases, to state a property once for both scorers. *)
Inductive Disease : Type :=
  | Malaria
  | Typhoid.

Definition catalog (d : Disease) : list string :=
  match d with
  | Malaria => malariaSymptoms
  | Typhoid => typhoidSymptoms
  end.

Definition assess (toLowerCase : string → string) (d : Disease)
    : Value → Value → Result Assessment :=
  match d with
  | Malaria => assessMalariaRisk toLowerCase
  | Typhoid => assessTyphoidRisk toLowerCase
  end.

(** The confirmatory tests of a disease, as read from its lab results. *)
Definition firstTest (d : Disease) : string :=
  match d with
  | Malaria => "rapidTest"
  | Typhoid => "widalTest"
  end.

Definition secondTest (d : Disease) : string :=
  match d with
  | Malaria => "microscopy"
  | Typhoid => "bloodCulture"
  end.

Definition confirmedPositive (d : Disease) (labs : Value) : Prop :=
  optChain labs (firstTest d) = JStr "positive"
  ∨ optChain labs (secondTest d) = JStr "positive".

(** The number of names whose lower-case form is in a catalog. *)
Definition matchCount (toLowerCase : string → string) (cat : list string)
    (names : list string) : nat :=
  length (filter (λ n, toLowerCase n ∈ cat) names).

(** ** Tiers, responses and stored fields, per disease *)

(** The property names and texts that differ between the two diseases, and
    closed forms of what the scorers and the endpoint compute on a
    well-formed report; the lemmas below relate them to the handlers. *)

(** Whether a confirmatory test of the disease reads exactly ["positive"]. *)
Definition positiveTest (d : Disease) (labs : Value) : bool :=
  strictEqStr (optChain labs (firstTest d)) "positive"
  || strictEqStr (optChain labs (secondTest d)) "positive".

Definition tierOf (score : nat) (positive : bool) : string :=
  if (5 <=? score)%nat || positive then "high"
  else if (3 <=? score)%nat then "moderate"
  else "low".

Definition tiers : list string := [ "low"; "moderate"; "high" ].

Definition labsKey (d : Disease) : string :=
  match d with
  | Malaria => "malaria"
  | Typhoid => "typhoid"
  end.

Definition assessmentKey (d : Disease) : string :=
  match d with
  | Malaria => "malariaAssessment"
  | Typhoid => "typhoidAssessment"
  end.

Definition recommendationFor (d : Disease) : string → string :=
  match d with
  | Malaria => malariaRecommendation
  | Typhoid => typhoidRecommendation
  end.

(** The entry of a disease in the [data] of a response, if it has one. *)
Definition resultFor (d : Disease) (resp : Response) : option DiseaseResult :=
  match resp with
  | Json _ (Assessed m t) =>
      Some match d with Malaria => m | Typhoid => t end
  | _ => None
  end.

(** What the endpoint answers for one disease on a well-formed report. *)
Definition diseaseResult (toLowerCase : string → string) (d : Disease)
    (es : list SymptomEntry) (labs : Value) : DiseaseResult :=
  let n := matchCount toLowerCase (catalog d) (name <$> es) in
  {| res_riskLevel := tierOf n (positiveTest d labs);
     res_score := n;
     res_matchingSymptoms :=
       JStr <$> filter (λ n, toLowerCase n ∈ catalog d) (name <$> es);
     res_recommendation := recommendationFor d (tierOf n (positiveTest d labs)) |}.

(** ** Concrete requests *)

Definition symptomOnly (n : string) : SymptomEntry :=
  {| name := n; fields := ∅ |}.

Definition withSeverity (n sev : string) : SymptomEntry :=
  {| name := n; fields := {[ "severity" := JStr sev ]} |}.

(** A request to the standalone endpoint. *)
Definition assessing (symptoms testResults : Value) : Request :=
  {| body := JObj (<["testResults" := testResults]> {[ "symptoms" := symptoms ]});
     params_id := "";
     user := JObj {[ "id" := JStr "u1" ]};
     validationErrors := [] |}.

(** *** A store for the examples

    A cast that admits the strings of 24 hexadecimal digits, references that
    resolve to a document of which only [_id] is shown, and a sufficient
    condition for the validators of [diagnosisSchema]: a document that passes
    [passesDiagnosisSchema] has the required paths ([diagnosisId], [patient],
    [doctor], [appointment], [diagnosis.primary], [symptom] and [severity] of
    each symptom), castable references and only values of the schema's
    enumerations. Fields that the check does not know fail it. *)

Definition hexDigit (c : ascii) : bool :=
  let n := nat_of_ascii c in
  ((48 <=? n) && (n <=? 57) || (97 <=? n) && (n <=? 102)
   || (65 <=? n) && (n <=? 70))%nat.

Definition isObjectIdString (s : string) : bool :=
  (String.length s =? 24)%nat && forallb hexDigit (list_ascii_of_string s).

Definition hexObjectId (id : string) : option string :=
  if isObjectIdString id then Some (toLowerCase_latin1 id) else None.

Definition shownById (path select : string) (ref : Value) : option Value :=
  Some (JObj {[ "_id" := ref ]}).

(** A string that is not empty once trimmed: it holds a visible character. *)
Definition isFilled (v : Value) : bool :=
  match v with
  | JStr s =>
      existsb (λ c, (33 <=? nat_of_ascii c)%nat && (nat_of_ascii c <=? 126)%nat)
        (list_ascii_of_string s)
  | _ => false
  end.

Definition isReference (v : Value) : bool :=
  match v with
  | JStr s => isObjectIdString s
  | _ => false
  end.

Definition oneOf (allowed : list string) (v : Value) : bool :=
  match v with
  | JStr s => includes allowed s
  | _ => false
  end.

(** An object all of whose fields pass the check of their name. *)
Definition fieldsPass (check : string → Value → bool) (v : Value) : bool :=
  match v with
  | JObj props => forallb (λ kv, check kv.1 kv.2) (map_to_list props)
  | _ => false
  end.

Definition symptomPasses (s : Value) : bool :=
  isFilled (optChain s "symptom")
  && oneOf [ "mild"; "moderate"; "severe" ] (optChain s "severity")
  && fieldsPass (λ k v,
       if bool_decide (k = "symptom") then isFilled v
       else if bool_decide (k = "severity") then oneOf [ "mild"; "moderate"; "severe" ] v
       else false) s.

Definition assessmentPasses (tests : list string) (species : list string) (v : Value)
    : bool :=
  fieldsPass (λ k v,
    if bool_decide (k = "riskLevel") then oneOf [ "low"; "moderate"; "high" ] v
    else if bool_decide (k = "species") then oneOf species v
    else if bool_decide (k = "testResults") then
      fieldsPass (λ t outcome,
        includes tests t && oneOf [ "positive"; "negative"; "not-done" ] outcome) v
    else false) v.

Definition fieldPasses (k : string) (v : Value) : bool :=
  if bool_decide (k = "diagnosisId") then isFilled v
  else if bool_decide (k ∈ [ "patient"; "doctor"; "appointment" ]) then isReference v
  else if bool_decide (k = "symptoms") then
    match v with
    | JArr xs => forallb symptomPasses xs
    | _ => false
    end
  else if bool_decide (k = "diagnosis") then
    isFilled (optChain v "primary")
    && fieldsPass (λ k v, bool_decide (k = "primary")) v
  else if bool_decide (k = "malariaAssessment") then
    assessmentPasses [ "rapidTest"; "microscopy" ]
      [ "P. falciparum"; "P. vivax"; "P. ovale"; "P. malariae"; "mixed" ] v
  else if bool_decide (k = "typhoidAssessment") then
    assessmentPasses [ "widalTest"; "bloodCulture"; "stoolCulture"; "typhiDot" ] [] v
  else false.

Definition passesDiagnosisSchema (data : gmap string Value) : bool :=
  forallb (λ k, bool_decide (is_Some (data !! k)))
    [ "diagnosisId"; "patient"; "doctor"; "appointment"; "diagnosis" ]
  && fieldsPass fieldPasses (JObj data).

(** An update passes when the fields it names pass. *)
Definition passesUpdateValidators (update : Value) : bool :=
  fieldsPass fieldPasses update.

(** A store with one patient and one appointment. *)
Definition clinic : Store :=
  {| patients := {[ "507f1f77bcf86cd799439011" ]};
     appointments := {[ "507f191e810c19729de860ea" ]};
     diagnoses := ∅ |}.

Definition doctorUser : Value :=
  JObj (<["id" := JStr "507f1f77bcf86cd799439012"]>
       (<["role" := JStr "doctor"]> {[ "status" := JStr "active" ]})).

Definition fiveSymptoms : Value :=
  report [ withSeverity "fever" "severe"; withSeverity "chills" "mild";
           withSeverity "headache" "mild"; withSeverity "nausea" "mild";
           withSeverity "vomiting" "moderate" ].

(** A doctor's request to create a diagnosis for that patient and
    appointment: every rule of [createDiagnosisValidation] holds of its body,
    which no sanitizer changes. The body names another user as [doctor]. *)
Definition creating : Request :=
  {| body := JObj
       (<["diagnosisId" := JStr "D000001"]>
       (<["patient" := JStr "507f1f77bcf86cd799439011"]>
       (<["appointment" := JStr "507f191e810c19729de860ea"]>
       (<["doctor" := JStr "507f1f77bcf86cd7994390ff"]>
       (<["diagnosis" := JObj {[ "primary" := JStr "Malaria" ]}]>
       (<["malariaAssessment" := JObj {[ "species" := JStr "P. vivax" ]}]>
       {[ "symptoms" := fiveSymptoms ]}))))));
     params_id := "";
     user := doctorUser;
     validationErrors := [] |}.

(** A later update of that diagnosis that replaces its symptom list. *)
Definition updating : Request :=
  {| body := JObj {[ "symptoms" := report [ withSeverity "alien itch" "mild" ] ]};
     params_id := "64d2f0a1b2c3d4e5f6a7b8c9";
     user := doctorUser;
     validationErrors := [] |}.

(** A request whose only entry has the severity "extreme": the severity rule
    of the route's validation chain has recorded an error for it. *)
Definition invalid_severity : Request :=
  {| body := JObj {[ "symptoms" := report [ withSeverity "fever" "extreme" ] ]};
     params_id := "64d2f0a1b2c3d4e5f6a7b8c9";
     user := JObj {[ "id" := JStr "507f1f77bcf86cd799439012" ]};
     validationErrors :=
       [ {| ve_path := "symptoms[0].severity";
            ve_msg := "Severity must be mild, moderate, or severe" |} ] |}.

(** ** Reading and listing diagnoses *)

(** [if (v) filter.k = v] *)
Definition setIfTruthy (k : string) (v : Value) (filter : gmap string Value)
    : gmap string Value :=
  if falsy v then filter else <[k := v]> filter.

(** The filter that [getDiagnoses] builds from [req.query] and the role of
    the user, before it queries the store; [findPatientOfUser id] is the
    answer of [Patient.findOne({ userId: id })], [null] when there is none. *)
Definition getDiagnoses_filter (findPatientOfUser : Value → Value)
    (query : Value) (req : Request) : Result (gmap string Value) :=
  patient ← getProp query "patient";
  doctor ← getProp query "doctor";
  let filter := setIfTruthy "doctor" doctor (setIfTruthy "patient" patient ∅) in
  role ← getProp (user req) "role";
  if strictEqStr role "doctor" then
    id ← getProp (user req) "id";
    mret (<["doctor" := id]> filter)
  else if strictEqStr role "patient" then
    id ← getProp (user req) "id";
    let patientRecord := findPatientOfUser id in
    if falsy patientRecord then mret filter
    else
      recordId ← getProp patientRecord "_id";
      mret (<["patient" := recordId]> filter)
  else mret filter.

(** ** The authentication middleware and the diagnosis routes *)

(** [roles.includes(v)] for an array of string literals. *)
Definition includesValue (roles : list string) (v : Value) : bool :=
  match v with
  | JStr r => includes roles r
  | _ => false
  end.

Section Conversions.

(** [Number.prototype.toString], a built-in of the language. *)
Variable numberToString : Z → string.

(** [`${v}`]: the string a value is turned into inside a template literal.
    An array is its elements joined by commas, [null] and [undefined] among
    them as the empty string. An object is converted by its [toString]
    method: the inherited one gives "[object Object]"; an own property of
    that name is no function in a parsed value, and then neither [toString]
    nor [valueOf] yields a primitive, which is a [TypeError]. *)
Fixpoint templateString (v : Value) : Result string :=
  match v with
  | JUndefined => Ok "undefined"
  | JNull => Ok "null"
  | JBool b => Ok (if b then "true" else "false")
  | JNum n => Ok (numberToString n)
  | JStr s => Ok s
  | JArr xs =>
      String.concat "," <$>
        (fix elements (xs : list Value) : Result (list string) :=
           match xs with
           | [] => Ok []
           | x :: rest =>
               shown ← match x with
                       | JUndefined | JNull => Ok ""
                       | _ => templateString x
                       end;
               others ← elements rest;
               mret (shown :: others)
           end) xs
  | JObj props =>
      if bool_decide (is_Some (props !! "toString")) then Throw TypeError
      else Ok "[object Object]"
  end.

(** [v.toString()]: [undefined] and [null] have no method, and an own
    [toString] of a parsed object is not callable. *)
Definition toStringMethod (v : Value) : Result string :=
  match v with
  | JUndefined | JNull => Throw TypeError
  | _ => templateString v
  end.

(** [authorize(...roles)]: [None] stands for the call of [next()]; the
    middleware has no [try], so an exception of the template literal leaves
    it. *)
Definition authorize (roles : list string) (req : Request)
    : Result (option Response) :=
  if falsy (user req) then
    mret (Some (Json 401 (Failure "User not authenticated" None)))
  else
    let role := optChain (user req) "role" in
    if negb (includesValue roles role) then
      shown ← templateString role;
      mret (Some (Json 403 (Failure
        ("User role '" ++ shown
           ++ "' is not authorized to access this resource") None)))
    else mret None.

(** [canAccessPatient], for the [patientId] of [req.params] ([undefined] when
    the route has no such parameter); [None] stands for [next()]. *)
Definition canAccessPatient (patientId : Value) (req : Request) : option Response :=
  match
    role ← getProp (user req) "role";
    if strictEqStr role "admin" then mret None
    else
      refused ←
        (if strictEqStr role "patient" then
           ownId ← getProp (user req) "_id";
           own ← toStringMethod ownId;
           mret (negb (strictEqStr patientId own))
         else mret false);
      if refused : bool then
        mret (Some (Json 403 (Failure "Not authorized to access this patient data" None)))
      else if includesValue [ "doctor"; "nurse"; "pharmacist"; "receptionist" ] role
      then mret None
      else mret None
  with
  | Ok outcome => outcome
  | Throw _ => Some (Json 500 (Failure "Server error in authorization check" None))
  end.

End Conversions.

(** [s.split(sep)] for a separator of one character. *)
Fixpoint split_go (sep : ascii) (s : string) : string * list string :=
  match s with
  | EmptyString => (EmptyString, [])
  | String c rest =>
      let '(piece, pieces) := split_go sep rest in
      if Ascii.eqb c sep then (EmptyString, piece :: pieces)
      else (String c piece, pieces)
  end.

Definition split (sep : ascii) (s : string) : list string :=
  let '(piece, pieces) := split_go sep s in piece :: pieces.

(** What [protect] has done when it returns: whether it called [next()],
    and then with which [req.user], and the response it sent, if any. *)
Record Passage : Type := {
  reached : option Value;
  answer : option Response
}.

Section Protect.

(** The payload of a token whose signature and expiry check out under the
    secret of the server. *)
Variable verifySigned : string → option Value.

(** [User.findByPk(id)]: the user, or [null]. *)
Variable findByPk : Value → Value.

(** [jwt.verify(token, secret)] throws ([None]) when it is not given a
    non-empty string, and when the token does not check out. *)
Definition jwt_verify (token : Value) : option Value :=
  match token with
  | JStr t => if bool_decide (t = "") then None else verifySigned t
  | _ => None
  end.

Definition unauthorized (error : string) : Response :=
  Json 401 (Failure error None).

Definition protect (authorization : option string) : Passage :=
  match authorization with
  | Some header =>
      if negb (bool_decide (header = "")) && String.prefix "Bearer" header then
        let token := default JUndefined (JStr <$> split " " header !! 1) in
        match jwt_verify token with
        | None =>
            {| reached := None;
               answer := Some (unauthorized "Not authorized, token failed") |}
        | Some decoded =>
            match getProp decoded "id" with
            | Throw _ =>
                {| reached := None;
                   answer := Some (unauthorized "Not authorized, token failed") |}
            | Ok id =>
                let user := findByPk id in
                if falsy user then
                  {| reached := None; answer := Some (unauthorized "User not found") |}
                else if negb (strictEqStr (optChain user "status") "active") then
                  {| reached := None;
                     answer := Some (unauthorized "Account is not active") |}
                else
                  {| reached := Some user;
                     answer :=
                       if falsy token
                       then Some (unauthorized "Not authorized, no token")
                       else None |}
            end
        end
      else
        {| reached := None; answer := Some (unauthorized "Not authorized, no token") |}
  | None =>
      {| reached := None; answer := Some (unauthorized "Not authorized, no token") |}
  end.

End Protect.

(** A validation chain of the router, run on a request: each of its rules
    checks a field of [req.body], its sanitizers ([trim]) rewrite the field,
    and the errors it records are what [validationResult(req)] holds
    afterwards; the chain always calls [next()]. *)
Definition validated (chain : Value → Value * list ValidationError) (req : Request)
    : Request :=
  {| body := (chain (body req)).1;
     params_id := params_id req;
     user := user req;
     validationErrors := (chain (body req)).2 |}.

(** Four routes of the diagnosis router, once [protect] has set [req.user]:
    the role check, then the validation chain, then the handler. *)
Section Routes.

Variable numberToString : Z → string.
Variable toLowerCase : string → string.
Variable schemaAccepts : gmap string Value → bool.
Variable resolve : string → string → Value → option Value.
Variable castObjectId : string → option string.
Variable updateAccepts : Value → bool.
Variable applyUpdate : Value → gmap string Value → option (gmap string Value).

(** [createDiagnosisValidation], [updateDiagnosisValidation] and
    [expertSystemValidation], as express-validator runs them on a body. *)
Variable createDiagnosisValidation : Value → Value * list ValidationError.
Variable updateDiagnosisValidation : Value → Value * list ValidationError.
Variable expertSystemValidation : Value → Value * list ValidationError.

(** [authorize(...roles)] in front of the rest of a route; an exception
    that leaves a middleware is passed to the error handler by the router,
    as [next(error)] is. *)
Definition guarded (roles : list string) (req : Request) (st : Store)
    (rest : Request → Store → Store * Response) : Store * Response :=
  match authorize numberToString roles req with
  | Throw e => (st, Next (Raised e))
  | Ok (Some refusal) => (st, refusal)
  | Ok None => rest req st
  end.

(** [router.route('/').post(authorize('doctor'), createDiagnosisValidation,
    createDiagnosis)] *)
Definition post_diagnosis (newId : string) (req : Request) (st : Store)
    : Store * Response :=
  guarded [ "doctor" ] req st (λ req st,
    createDiagnosis toLowerCase schemaAccepts resolve newId
      (validated createDiagnosisValidation req) st).

(** [router.route('/:id').put(authorize('doctor'), updateDiagnosisValidation,
    updateDiagnosis)] *)
Definition put_diagnosis (req : Request) (st : Store) : Store * Response :=
  guarded [ "doctor" ] req st (λ req st,
    updateDiagnosis resolve castObjectId updateAccepts applyUpdate
      (validated updateDiagnosisValidation req) st).

(** [router.post('/expert-system/assess', authorize('doctor', 'nurse'),
    expertSystemValidation, getExpertSystemAssessment)] *)
Definition post_expert_system_assess (req : Request) (st : Store)
    : Store * Response :=
  guarded [ "doctor"; "nurse" ] req st (λ req st,
    (st, getExpertSystemAssessment toLowerCase
           (validated expertSystemValidation req))).

(** [router.route('/:id').get(getDiagnosis)] *)
Definition get_diagnosis (req : Request) (st : Store) : Store * Response :=
  (st, getDiagnosis resolve castObjectId req st).

End Routes.

(** ** The identifier hook of the diagnosis model *)

(** [s.padStart(targetLength, pad)] for a pad of one character. *)
Definition padStart (targetLength : nat) (pad : ascii) (s : string) : string :=
  string_of_list_ascii (replicate (targetLength - String.length s) pad) ++ s.

(** [Number.MAX_SAFE_INTEGER] *)
Definition MAX_SAFE_INTEGER : N := 9007199254740991.

(** [`D${String(count + 1).padStart(6, '0')}`], the identifier that the
    [pre('save')] hook computes from the number of documents that
    [countDocuments()] reports. The count is a JavaScript number: up to
    [MAX_SAFE_INTEGER] the sum is exact and [String] gives its decimal
    digits; the counts beyond are not modelled ([None]). *)
Definition generatedDiagnosisId (count : N) : option string :=
  if (count <=? MAX_SAFE_INTEGER)%N
  then Some ("D" ++ padStart 6 "0" (pretty (count + 1)%N))
  else None.

(** ** Notions used to state further properties *)

(** The order of the tiers. *)
Definition tierRank (tier : string) : nat :=
  if bool_decide (tier = "high") then 2
  else if bool_decide (tier = "moderate") then 1
  else 0.

(** Whether an element of the [symptoms] array is an object whose [symptom]
    is a string. *)
Definition hasName (s : Value) : bool :=
  match s with
  | JObj props =>
      match props !! "symptom" with
      | Some (JStr _) => true
      | _ => false
      end
  | _ => false
  end.

(** The [riskLevel] values that [diagnosisSchema] admits. *)
Definition riskLevelEnum : list string := [ "low"; "moderate"; "high" ].

(** The filter that the query string alone asks for. *)
Definition queryFilter (query : Value) : gmap string Value :=
  setIfTruthy "doctor" (optChain query "doctor")
    (setIfTruthy "patient" (optChain query "patient") ∅).

(** The status of a response, if it is one. *)
Definition statusOf (resp : Response) : option nat :=
  match resp with
  | Json status _ => Some status
  | Next _ => None
  end.

(** The ways in which a route turns a request away before its validation
    chain and its handler run. *)
Definition turnedAway (resp : Response) : Prop :=
  statusOf resp = Some 401 ∨ statusOf resp = Some 403
  ∨ resp = Next (Raised TypeError).

(** ** Concrete users, queries and tokens *)

Definition patientUser : Value :=
  JObj (<["id" := JStr "507f1f77bcf86cd799439013"]>
       (<["role" := JStr "patient"]> {[ "status" := JStr "active" ]})).

Definition nurseUser : Value :=
  JObj (<["id" := JStr "507f1f77bcf86cd799439014"]>
       (<["role" := JStr "nurse"]> {[ "status" := JStr "active" ]})).

(** A request of a user that carries no body. *)
Definition requestOf (u : Value) : Request :=
  {| body := JUndefined; params_id := "64d2f0a1b2c3d4e5f6a7b8c9"; user := u;
     validationErrors := [] |}.

(** A query string that asks for the diagnoses of another doctor and of some
    patient. *)
Definition askingForOthers : Value :=
  JObj (<["doctor" := JStr "507f1f77bcf86cd7994390ff"]>
       {[ "patient" := JStr "507f1f77bcf86cd799439011" ]}).

(** The only patient record belongs to [patientUser]. *)
Definition onePatientRecord (userId : Value) : Value :=
  if strictEqStr userId "507f1f77bcf86cd799439013"
  then JObj {[ "_id" := JStr "507f1f77bcf86cd799439021" ]}
  else JNull.

(** The request to the standalone endpoint that carries the symptoms of
    [creating] and, like it, no lab results. *)
Definition askingTheSame : Request :=
  assessing fiveSymptoms JUndefined.

(** ** Sequences of requests *)

(** A request to one of the four routes above: [POST /], [PUT /:id],
    [POST /expert-system/assess] and [GET /:id]. The router has two more,
    [GET /] and [POST /patient-ai], which are not part of it. *)
Inductive Operation : Type :=
  | PostDiagnosis (newId : string) (req : Request)
  | PutDiagnosis (req : Request)
  | PostAssess (req : Request)
  | GetDiagnosis (req : Request).

Definition requestIn (op : Operation) : Request :=
  match op with
  | PostDiagnosis _ req | PutDiagnosis req | PostAssess req | GetDiagnosis req => req
  end.

Section Serving.

Variable numberToString : Z → string.
Variable toLowerCase : string → string.
Variable schemaAccepts : gmap string Value → bool.
Variable resolve : string → string → Value → option Value.
Variable castObjectId : string → option string.
Variable updateAccepts : Value → bool.
Variable applyUpdate : Value → gmap string Value → option (gmap string Value).
Variable createDiagnosisValidation : Value → Value * list ValidationError.
Variable updateDiagnosisValidation : Value → Value * list ValidationError.
Variable expertSystemValidation : Value → Value * list ValidationError.

Definition serve (st : Store) (op : Operation) : Store * Response :=
  match op with
  | PostDiagnosis newId req =>
      post_diagnosis numberToString toLowerCase schemaAccepts resolve
        createDiagnosisValidation newId req st
  | PutDiagnosis req =>
      put_diagnosis numberToString resolve castObjectId updateAccepts applyUpdate
        updateDiagnosisValidation req st
  | PostAssess req =>
      post_expert_system_assess numberToString toLowerCase expertSystemValidation req st
  | GetDiagnosis req => get_diagnosis resolve castObjectId req st
  end.

(** The store after a sequence of requests. *)
Definition serveAll (st : Store) (ops : list Operation) : Store :=
  foldl (λ st op, (serve st op).1) st ops.

End Serving.

(** A store whose queries for referenced documents fail. *)
Definition unreachable (path select : string) (ref : Value) : option Value := None.

(** One token that checks out, naming the user 7, who is an active nurse. *)
Definition oneToken (token : string) : option Value :=
  if bool_decide (token = "header.payload.signature")
  then Some (JObj {[ "id" := JNum 7 ]})
  else None.

Definition oneUser (id : Value) : Value :=
  match id with
  | JNum 7 => nurseUser
  | _ => JNull
  end.

(** * Properties *)

(** ** Basic facts *)

Lemma includes_elem_of (cat : list string) (x : string) :
  includes cat x = bool_decide (x ∈ cat).
Proof.
  induction cat as [|c rest IH]; cbn [includes].
  - symmetry. apply bool_decide_eq_false_2, not_elem_of_nil.
  - destruct (decide (c = x)) as [->|Hc].
    + rewrite (bool_decide_eq_true_2 (x = x)) by done.
      symmetry. apply bool_decide_eq_true_2. left.
    + rewrite (bool_decide_eq_false_2 (c = x)) by done.
      rewrite IH. apply bool_decide_ext. rewrite elem_of_cons.
      split; [by right | by intros [->|?]].
Qed.

Lemma strictEqStr_true (v : Value) (lit : string) :
  strictEqStr v lit = true ↔ v = JStr lit.
Proof.
  destruct v; simpl; try (split; [discriminate | intros [=]]).
  rewrite bool_decide_eq_true. split; [by intros -> | by intros [= ->]].
Qed.

Lemma entry_well_formed (props : gmap string Value) (n : string) :
  props !! "symptom" = Some (JStr n) →
  JObj props = entry {| name := n; fields := props |}.
Proof. intros H. unfold entry. simpl. by rewrite insert_id. Qed.

Section ScorerFacts.

Variable toLowerCase : string → string.

Lemma getProp_entry_symptom (e : SymptomEntry) :
  getProp (entry e) "symptom" = Ok (JStr (name e)).
Proof. unfold entry. simpl. by rewrite lookup_insert_eq. Qed.

Lemma matchesCatalog_entry (cat : list string) (e : SymptomEntry) :
  matchesCatalog toLowerCase cat (entry e)
  = Ok (bool_decide (toLowerCase (name e) ∈ cat)).
Proof.
  unfold matchesCatalog. rewrite getProp_entry_symptom. simpl.
  by rewrite includes_elem_of.
Qed.

(** On a well-formed report the filter never throws and keeps the entries
    whose lower-cased name is in the catalog, in order. *)
Lemma filterM_report (cat : list string) (es : list SymptomEntry) :
  filterM (matchesCatalog toLowerCase cat) (entry <$> es)
  = Ok (entry <$> filter (λ e, toLowerCase (name e) ∈ cat) es).
Proof.
  induction es as [|e es IH]; [done|].
  rewrite fmap_cons. simpl. rewrite matchesCatalog_entry, IH. simpl.
  rewrite filter_cons. unfold mret, Result_ret.
  destruct (decide (toLowerCase (name e) ∈ cat)) as [Hin|Hout].
  - by rewrite (bool_decide_eq_true_2 _ Hin).
  - by rewrite (bool_decide_eq_false_2 _ Hout).
Qed.

Lemma filter_names_length (cat : list string) (es : list SymptomEntry) :
  length (filter (λ e, toLowerCase (name e) ∈ cat) es)
  = matchCount toLowerCase cat (name <$> es).
Proof.
  unfold matchCount. induction es as [|e es IH]; [done|].
  rewrite fmap_cons, !filter_cons. destruct (decide _); simpl; by rewrite IH.
Qed.

End ScorerFacts.

(** ** The scorers on well-formed reports *)

Lemma positiveTest_true (d : Disease) (labs : Value) :
  positiveTest d labs = true ↔ confirmedPositive d labs.
Proof.
  unfold positiveTest, confirmedPositive.
  by rewrite orb_true_iff, !strictEqStr_true.
Qed.

Lemma positiveTest_false (d : Disease) (labs : Value) :
  positiveTest d labs = false ↔ ¬ confirmedPositive d labs.
Proof.
  rewrite <- positiveTest_true. destruct (positiveTest d labs); naive_solver.
Qed.

Lemma tierOf_values (n : nat) (p : bool) :
  tierOf n p = "high" ∨ tierOf n p = "moderate" ∨ tierOf n p = "low".
Proof. unfold tierOf. repeat case_match; auto. Qed.

Lemma tierOf_high (n : nat) (p : bool) :
  tierOf n p = "high" ↔ 5 ≤ n ∨ p = true.
Proof.
  unfold tierOf. destruct (Nat.leb_spec 5 n), p; simpl;
    repeat case_match; split; try done; auto; intros [?|?]; done || lia.
Qed.

Lemma tierOf_moderate (n : nat) (p : bool) :
  tierOf n p = "moderate" ↔ ¬ (5 ≤ n ∨ p = true) ∧ 3 ≤ n.
Proof.
  unfold tierOf.
  destruct (Nat.leb_spec 5 n), p, (Nat.leb_spec 3 n); simpl;
    split; try done; try (intros [Hn ?]; exfalso; apply Hn; auto; fail);
    try (intros [? ?]; lia).
  intros _. split; [intros [?|?]; done || lia | done].
Qed.

Lemma tierOf_low (n : nat) (p : bool) :
  tierOf n p = "low" ↔ ¬ (5 ≤ n ∨ p = true) ∧ n < 3.
Proof.
  unfold tierOf.
  destruct (Nat.leb_spec 5 n), p, (Nat.leb_spec 3 n); simpl;
    split; try done; try (intros [Hn ?]; exfalso; apply Hn; auto; fail);
    try (intros [? ?]; lia).
  intros _. split; [intros [?|?]; done || lia | done].
Qed.

Section ScorerOnReports.

Variable toLowerCase : string → string.

(** Either scorer, on any array: the score is the number of kept entries
    and the tier follows from it and from the confirmatory tests. *)
Lemma assess_array (d : Disease) (xs : list Value) (labs : Value) :
  assess toLowerCase d (JArr xs) labs
  = (λ kept, {| riskLevel := tierOf (length kept) (positiveTest d labs);
                score := length kept |})
    <$> filterM (matchesCatalog toLowerCase (catalog d)) xs.
Proof.
  destruct d; simpl; unfold assessMalariaRisk, assessTyphoidRisk; simpl;
    destruct (filterM _ xs) as [kept|err]; simpl; try done;
    unfold mret, Result_ret, tierOf, positiveTest; simpl;
    by rewrite orb_assoc.
Qed.

Lemma assess_report (d : Disease) (es : list SymptomEntry) (labs : Value) :
  let n := matchCount toLowerCase (catalog d) (name <$> es) in
  assess toLowerCase d (report es) labs
  = Ok {| riskLevel := tierOf n (positiveTest d labs); score := n |}.
Proof.
  intros n. unfold report. rewrite assess_array, filterM_report. simpl.
  by rewrite length_fmap, filter_names_length.
Qed.

End ScorerOnReports.

(** ** Score and tier *)

Lemma matchCount_no_match (toLowerCase : string → string) (cat : list string)
    (es : list SymptomEntry) :
  Forall (λ e, toLowerCase (name e) ∉ cat) es →
  matchCount toLowerCase cat (name <$> es) = 0.
Proof.
  unfold matchCount. induction 1 as [|e es Hout _ IH]; [done|].
  rewrite fmap_cons, filter_cons. by destruct (decide _).
Qed.

Lemma matchCount_fmap (toLowerCase : string → string) (cat : list string)
    (names : list string) :
  matchCount toLowerCase cat names
  = length (filter (.∈ cat) (toLowerCase <$> names)).
Proof.
  unfold matchCount. induction names as [|n names IH]; [reflexivity|].
  rewrite fmap_cons, !filter_cons. destruct (decide _); simpl; by rewrite IH.
Qed.

(** C1, as the code has it: for every well-formed symptom report and each
    disease the scorer returns, and its score is the number of entries whose
    lower-cased name is in the disease's catalog (the eleven malaria and the
    eleven typhoid names); a report with no catalog match scores 0, and its
    tier is low when no confirmatory test of the disease is positive. *)
Theorem score_counts_catalog_matches (toLowerCase : string → string)
    (d : Disease) (es : list SymptomEntry) (labs : Value) :
  catalog Malaria =
    [ "fever"; "chills"; "headache"; "muscle aches"; "fatigue"; "nausea"; "vomiting";
      "diarrhea"; "abdominal pain"; "sweating"; "shivering" ]
  ∧ catalog Typhoid =
    [ "fever"; "headache"; "weakness"; "stomach pain"; "constipation"; "diarrhea";
      "loss of appetite"; "rash"; "enlarged spleen"; "rose spots"; "dry cough" ]
  ∧ ∃ a, assess toLowerCase d (report es) labs = Ok a
    ∧ score a = length (filter (λ n, toLowerCase n ∈ catalog d) (name <$> es))
    ∧ (Forall (λ e, toLowerCase (name e) ∉ catalog d) es →
       score a = 0 ∧ (¬ confirmedPositive d labs → riskLevel a = "low")).
Proof.
  split; [reflexivity|]. split; [reflexivity|].
  eexists. split; [apply assess_report|]. split; [reflexivity|].
  intros Hnone. simpl. rewrite (matchCount_no_match _ _ _ Hnone).
  split; [reflexivity|]. intros Hlabs. apply positiveTest_false in Hlabs.
  rewrite Hlabs. reflexivity.
Qed.

(** C2: for every well-formed report and lab results the tier is high
    exactly when the score is at least 5 or a confirmatory test of the
    disease is "positive", moderate exactly when that fails and the score is
    at least 3, low exactly when that fails and the score is below 3; without
    a positive confirmatory test the result is the one obtained with no lab
    results at all. *)
Theorem tier_precedence (toLowerCase : string → string)
    (d : Disease) (es : list SymptomEntry) (labs : Value) :
  ∃ a, assess toLowerCase d (report es) labs = Ok a
    ∧ score a = matchCount toLowerCase (catalog d) (name <$> es)
    ∧ (riskLevel a = "high" ↔ 5 ≤ score a ∨ confirmedPositive d labs)
    ∧ (riskLevel a = "moderate" ↔
         ¬ (5 ≤ score a ∨ confirmedPositive d labs) ∧ 3 ≤ score a)
    ∧ (riskLevel a = "low" ↔
         ¬ (5 ≤ score a ∨ confirmedPositive d labs) ∧ score a < 3)
    ∧ (confirmedPositive d labs → riskLevel a = "high")
    ∧ (¬ confirmedPositive d labs →
         assess toLowerCase d (report es) JUndefined = Ok a).
Proof.
  eexists. split; [apply assess_report|]. simpl.
  rewrite <- positiveTest_true.
  split; [reflexivity|]. split; [apply tierOf_high|].
  split; [apply tierOf_moderate|]. split; [apply tierOf_low|].
  split.
  - intros Hpos. apply tierOf_high. by right.
  - intros Hneg. apply not_true_is_false in Hneg.
    rewrite assess_report. rewrite Hneg. destruct d; reflexivity.
Qed.

(** C10: a confirmatory test counts only by being exactly the string
    "positive". For every well-formed report and every lab results, with [a]
    the assessment and [a0] the one of the same report without lab results:
    the score is the number of catalog matches in both; [a] is high exactly
    when that number is at least 5 or one of the disease's two tests reads
    "positive", and a test that reads "positive" makes it high whatever the
    score; the lab results change the assessment exactly when the number is
    below 5 and one of the two tests reads "positive", so that any other
    outcome (another string such as "Positive", "negative" or "not-done", a
    value that is not a string, an absent field) counts as no lab result.
    Symptom names, in contrast, are compared through their lower-case form
    only. *)
Theorem lab_match_is_exact (toLowerCase : string → string)
    (d : Disease) (es : list SymptomEntry) (labs : Value) :
  ∃ a a0, assess toLowerCase d (report es) labs = Ok a
    ∧ assess toLowerCase d (report es) JUndefined = Ok a0
    ∧ score a = matchCount toLowerCase (catalog d) (name <$> es)
    ∧ score a0 = matchCount toLowerCase (catalog d) (name <$> es)
    ∧ (riskLevel a0 = "high" ↔ 5 ≤ matchCount toLowerCase (catalog d) (name <$> es))
    ∧ (riskLevel a = "high" ↔
         5 ≤ matchCount toLowerCase (catalog d) (name <$> es)
         ∨ optChain labs (firstTest d) = JStr "positive"
         ∨ optChain labs (secondTest d) = JStr "positive")
    ∧ (optChain labs (firstTest d) = JStr "positive"
       ∨ optChain labs (secondTest d) = JStr "positive" →
       riskLevel a = "high")
    ∧ (a ≠ a0 ↔
         matchCount toLowerCase (catalog d) (name <$> es) < 5
         ∧ (optChain labs (firstTest d) = JStr "positive"
            ∨ optChain labs (secondTest d) = JStr "positive"))
    ∧ (∀ es' : list SymptomEntry,
         (toLowerCase ∘ name) <$> es' = (toLowerCase ∘ name) <$> es →
         assess toLowerCase d (report es') labs = Ok a).
Proof.
  do 2 eexists. split; [apply assess_report|]. split; [apply assess_report|].
  assert (positiveTest d JUndefined = false) as -> by (by destruct d).
  set (n := matchCount toLowerCase (catalog d) (name <$> es)).
  cbn [score riskLevel].
  split; [reflexivity|]. split; [reflexivity|].
  split.
  { rewrite tierOf_high. split; [intros [?|?]; [assumption|congruence]|by left]. }
  split.
  { rewrite tierOf_high, positiveTest_true. unfold confirmedPositive. tauto. }
  split.
  { intros Hpos. apply tierOf_high. right. by apply positiveTest_true. }
  split.
  { destruct (positiveTest d labs) eqn:Hp.
    - apply positiveTest_true in Hp. unfold confirmedPositive in Hp.
      unfold tierOf. rewrite orb_true_r, orb_false_r.
      destruct (5 <=? n) eqn:Hn.
      + apply Nat.leb_le in Hn. split; [by intros []|]. intros [Hlt _]. lia.
      + apply Nat.leb_gt in Hn. split; [by intros _|].
        intros _. destruct (3 <=? n); cbn; discriminate.
    - split; [by intros []|]. intros [_ Hpos].
      apply (positiveTest_true d labs) in Hpos. congruence. }
  intros es' Hsame. rewrite assess_report.
  assert (matchCount toLowerCase (catalog d) (name <$> es') = n) as ->;
    [|reflexivity].
  unfold n. rewrite !matchCount_fmap, <- !list_fmap_compose. by rewrite Hsame.
Qed.

(** ** The standalone endpoint *)

(** A body that has been parsed to something else than [null] can be
    destructured, whatever the property. *)
Lemma getProp_defined (v : Value) (k k' : string) (x : Value) :
  getProp v k = Ok x → getProp v k' = Ok (optChain v k').
Proof. destruct v; simpl; congruence. Qed.

Section Endpoint.

Variable toLowerCase : string → string.

Lemma traverse_entry_names (es : list SymptomEntry) :
  traverse (λ s, getProp s "symptom") (entry <$> es) = Ok (JStr ∘ name <$> es).
Proof.
  induction es as [|e es IH]; [reflexivity|].
  rewrite !fmap_cons. cbn [traverse].
  rewrite getProp_entry_symptom, IH. reflexivity.
Qed.

Lemma filter_names (cat : list string) (es : list SymptomEntry) :
  name <$> filter (λ e, toLowerCase (name e) ∈ cat) es
  = filter (λ n, toLowerCase n ∈ cat) (name <$> es).
Proof.
  induction es as [|e es IH]; [reflexivity|].
  rewrite fmap_cons, !filter_cons.
  destruct (decide _); [rewrite fmap_cons|]; by rewrite IH.
Qed.

Lemma matchingSymptoms_report (cat : list string) (es : list SymptomEntry) :
  matchingSymptoms toLowerCase cat (report es)
  = Ok (JStr <$> filter (λ n, toLowerCase n ∈ cat) (name <$> es)).
Proof.
  unfold matchingSymptoms, report, arrayFilter.
  rewrite filterM_report. simpl. rewrite traverse_entry_names.
  by rewrite list_fmap_compose, filter_names.
Qed.

Lemma getExpertSystemAssessment_report (req : Request) (es : list SymptomEntry) :
  es ≠ [] →
  getProp (body req) "symptoms" = Ok (report es) →
  getExpertSystemAssessment toLowerCase req
  = Json 200 (Assessed
      (diseaseResult toLowerCase Malaria es (optChain (optChain (body req) "testResults") "malaria"))
      (diseaseResult toLowerCase Typhoid es (optChain (optChain (body req) "testResults") "typhoid"))).
Proof.
  intros Hne Hsym. unfold getExpertSystemAssessment.
  rewrite Hsym, (getProp_defined _ _ "testResults" _ Hsym). simpl.
  destruct es as [|e es]; [done|]. cbn [lengthIsZero fmap list_fmap].
  change (JArr (entry e :: list_fmap _ _ entry es)) with (report (e :: es)).
  pose proof (assess_report toLowerCase Malaria (e :: es)) as Hm.
  pose proof (assess_report toLowerCase Typhoid (e :: es)) as Ht.
  simpl in Hm, Ht. rewrite Hm, Ht. simpl.
  rewrite !matchingSymptoms_report. reflexivity.
Qed.

Lemma getExpertSystemAssessment_rejects (req : Request) (symptoms : Value) :
  getProp (body req) "symptoms" = Ok symptoms →
  (∀ x xs, symptoms ≠ JArr (x :: xs)) →
  getExpertSystemAssessment toLowerCase req
  = Json 400 (Failure "Symptoms array is required" None).
Proof.
  intros Hsym Hbad. unfold getExpertSystemAssessment.
  rewrite Hsym, (getProp_defined _ _ "testResults" _ Hsym). simpl.
  destruct symptoms as [| |b|n|s|xs|props]; simpl; try reflexivity.
  - by destruct b.
  - by destruct (n =? 0)%Z.
  - by case_bool_decide.
  - destruct xs as [|x xs]; [reflexivity|]. by destruct (Hbad x xs).
Qed.

End Endpoint.

Lemma tierOf_tiers (n : nat) (p : bool) : tierOf n p ∈ tiers.
Proof.
  unfold tiers. destruct (tierOf_values n p) as [-> | [-> | ->] ];
    rewrite !elem_of_cons; auto.
Qed.

Section EndpointClaims.

Variable toLowerCase : string → string.

(** A scorer that returns has scored an array, and its tier is the one its
    score and the confirmatory tests give. *)
Lemma assess_Ok_inv (d : Disease) (symptoms labs : Value) (a : Assessment) :
  assess toLowerCase d symptoms labs = Ok a →
  riskLevel a = tierOf (score a) (positiveTest d labs).
Proof.
  destruct symptoms as [ | | ? | ? | ? | xs | ? ]; try (destruct d; discriminate).
  rewrite assess_array.
  destruct (filterM _ xs) as [kept|err]; simpl; [|discriminate].
  by intros [= <-].
Qed.


(** C5: on a non-empty well-formed report the [matchingSymptoms] of each
    disease are the submitted names whose lower-case form is in the catalog
    of the disease, as submitted, in order and with repetitions: they are a
    subsequence of the submitted names and as many as the score. *)
Theorem matching_symptoms_subsequence (d : Disease) (req : Request)
    (es : list SymptomEntry) :
  es ≠ [] →
  getProp (body req) "symptoms" = Ok (report es) →
  ∃ r, resultFor d (getExpertSystemAssessment toLowerCase req) = Some r
    ∧ res_matchingSymptoms r
      = JStr <$> filter (λ n, toLowerCase n ∈ catalog d) (name <$> es)
    ∧ res_matchingSymptoms r `sublist_of` (JStr <$> (name <$> es))
    ∧ length (res_matchingSymptoms r) = res_score r.
Proof.
  intros Hne Hsym.
  rewrite (getExpertSystemAssessment_report _ _ _ Hne Hsym).
  exists (diseaseResult toLowerCase d es
            (optChain (optChain (body req) "testResults") (labsKey d))).
  split; [by destruct d|]. split; [reflexivity|]. split.
  - apply fmap_sublist, sublist_filter.
  - simpl. by rewrite length_fmap.
Qed.

(** C7: two requests with well-formed reports that carry the same names in
    the same order, and with the same lab results for a disease, get the
    same result for that disease (tier, score, matching symptoms and
    recommendation), whatever the other fields of the entries and the lab
    results of the other disease are. *)
Theorem result_depends_on_names_and_own_labs (d : Disease) (req1 req2 : Request)
    (es1 es2 : list SymptomEntry) :
  es1 ≠ [] →
  getProp (body req1) "symptoms" = Ok (report es1) →
  getProp (body req2) "symptoms" = Ok (report es2) →
  name <$> es1 = name <$> es2 →
  optChain (optChain (body req1) "testResults") (labsKey d)
  = optChain (optChain (body req2) "testResults") (labsKey d) →
  ∃ r, resultFor d (getExpertSystemAssessment toLowerCase req1) = Some r
    ∧ resultFor d (getExpertSystemAssessment toLowerCase req2) = Some r.
Proof.
  intros Hne1 Hsym1 Hsym2 Hnames Hlabs.
  assert (es2 ≠ []) as Hne2.
  { intros ->. destruct es1; [done|discriminate]. }
  rewrite (getExpertSystemAssessment_report _ _ _ Hne1 Hsym1).
  rewrite (getExpertSystemAssessment_report _ _ _ Hne2 Hsym2).
  eexists. split; [reflexivity|].
  destruct d; simpl in *; unfold diseaseResult; by rewrite Hnames, Hlabs.
Qed.

(** C4: the recommendation is the fixed text of the tier: "Immediate
    <disease> testing and treatment recommended" for high, "Consider
    <disease> testing" for moderate, "Low <disease> risk" for low; every
    answer of the standalone endpoint and of diagnosis creation carries a tier
    among low, moderate and high together with the text of that tier. *)
Theorem recommendation_by_tier :
  (malariaRecommendation "high" = "Immediate malaria testing and treatment recommended"
   ∧ malariaRecommendation "moderate" = "Consider malaria testing"
   ∧ malariaRecommendation "low" = "Low malaria risk"
   ∧ typhoidRecommendation "high" = "Immediate typhoid testing and treatment recommended"
   ∧ typhoidRecommendation "moderate" = "Consider typhoid testing"
   ∧ typhoidRecommendation "low" = "Low typhoid risk")
  ∧ (∀ req status m t,
       getExpertSystemAssessment toLowerCase req = Json status (Assessed m t) →
       res_riskLevel m ∈ tiers ∧ res_riskLevel t ∈ tiers
       ∧ res_recommendation m = malariaRecommendation (res_riskLevel m)
       ∧ res_recommendation t = typhoidRecommendation (res_riskLevel t))
  ∧ (∀ schemaAccepts resolve newId req st st' status data m t,
       createDiagnosis toLowerCase schemaAccepts resolve newId req st
       = (st', Json status (Created data m t)) →
       rec_riskLevel m ∈ tiers ∧ rec_riskLevel t ∈ tiers
       ∧ rec_recommendation m = malariaRecommendation (rec_riskLevel m)
       ∧ rec_recommendation t = typhoidRecommendation (rec_riskLevel t)).
Proof.
  split; [repeat split; reflexivity|]. split.
  - intros req status m t. unfold getExpertSystemAssessment.
    destruct (getProp (body req) "symptoms") as [symptoms|]; [|discriminate].
    destruct (getProp (body req) "testResults") as [testResults|]; [|discriminate].
    cbn [mbind Result_bind].
    destruct (falsy symptoms || negb (isArray symptoms) || lengthIsZero symptoms);
      [discriminate|].
    destruct (assessMalariaRisk _ symptoms _) as [am|] eqn:Hm; [|discriminate].
    destruct (assessTyphoidRisk _ symptoms _) as [at_|] eqn:Ht; [|discriminate].
    cbn [mbind Result_bind].
    destruct (matchingSymptoms _ malariaSymptoms symptoms); [|discriminate].
    destruct (matchingSymptoms _ typhoidSymptoms symptoms); [|discriminate].
    intros [= <- <- <-]. cbn.
    rewrite (assess_Ok_inv Malaria _ _ _ Hm), (assess_Ok_inv Typhoid _ _ _ Ht).
    auto using tierOf_tiers.
  - intros schemaAccepts resolve newId req st st' status data m t.
    unfold createDiagnosis.
    destruct (negb _); [discriminate|].
    destruct (getProp (body req) "patient") as [patient|]; [|discriminate].
    destruct (getProp (body req) "appointment") as [appointment|]; [|discriminate].
    destruct (getProp (body req) "symptoms") as [symptoms|]; [|discriminate].
    cbn [mbind Result_bind].
    destruct (negb (findById _ patient)); [discriminate|].
    destruct (negb (findById _ appointment)); [discriminate|].
    destruct (getProp (body req) "malariaAssessment") as [bm|]; [|discriminate].
    cbn [mbind Result_bind].
    destruct (assessMalariaRisk _ symptoms _) as [am|] eqn:Hm; [|discriminate].
    destruct (getProp (body req) "typhoidAssessment") as [bt|]; [|discriminate].
    cbn [mbind Result_bind].
    destruct (assessTyphoidRisk _ symptoms _) as [at_|] eqn:Ht; [|discriminate].
    cbn [mbind Result_bind].
    destruct (getProp (user req) "id") as [doctor|]; [|discriminate].
    cbn [mbind Result_bind].
    destruct (Diagnosis_create _ _ _ _) as [st1|]; [|discriminate].
    destruct (populate _ _ _) as [shown|]; [|discriminate].
    intros [= <- <- <- <- <-]. cbn.
    rewrite (assess_Ok_inv Malaria _ _ _ Hm), (assess_Ok_inv Typhoid _ _ _ Ht).
    auto using tierOf_tiers.
Qed.

End EndpointClaims.

(** ** Order and repetitions *)

Section Order.

Variable toLowerCase : string → string.

(** The number of elements a filter keeps, or its failure, does not depend
    on the order in which it meets the elements. *)
Lemma filterM_length_Permutation {A} (p : A → Result bool) (xs ys : list A) :
  xs ≡ₚ ys → length <$> filterM p xs = length <$> filterM p ys.
Proof.
  induction 1 as [|x xs ys _ IH|x y xs|xs ys zs _ IH1 _ IH2].
  - reflexivity.
  - cbn [filterM]. destruct (p x) as [b|e]; [|reflexivity].
    cbn [mbind Result_bind].
    destruct (filterM p xs) as [kx|ex], (filterM p ys) as [ky|ey];
      simpl in *; try congruence.
    injection IH as IH. destruct b; simpl; congruence.
  - cbn [filterM]. destruct (p x) as [bx|[]], (p y) as [by_|[]];
      cbn [mbind Result_bind]; try reflexivity;
      destruct (filterM p xs) as [k|[]]; try reflexivity.
    by destruct bx, by_.
  - congruence.
Qed.

Lemma matchCount_app (cat : list string) (ns ms : list string) :
  matchCount toLowerCase cat (ns ++ ms)
  = matchCount toLowerCase cat ns + matchCount toLowerCase cat ms.
Proof. unfold matchCount. by rewrite filter_app, length_app. Qed.

Lemma matchCount_replicate (cat : list string) (n : nat) (x : string) :
  toLowerCase x ∈ cat → matchCount toLowerCase cat (replicate n x) = n.
Proof.
  intros Hin. unfold matchCount. induction n as [|n IH]; [reflexivity|].
  cbn [replicate]. rewrite filter_cons_True by done. simpl. by rewrite IH.
Qed.

(** C8: the score and the tier of either disease do not change when the
    entries of a report are permuted, and repetitions count: a catalog
    symptom submitted n times adds n to the score. *)
Theorem scoring_ignores_order (d : Disease) (labs : Value) :
  (∀ xs ys : list Value, xs ≡ₚ ys →
     assess toLowerCase d (JArr xs) labs = assess toLowerCase d (JArr ys) labs)
  ∧ (∀ es es' : list SymptomEntry, es ≡ₚ es' →
     ∃ a, assess toLowerCase d (report es) labs = Ok a
        ∧ assess toLowerCase d (report es') labs = Ok a)
  ∧ (∀ (e : SymptomEntry) (n : nat) (es : list SymptomEntry),
     toLowerCase (name e) ∈ catalog d →
     ∃ a b, assess toLowerCase d (report (replicate n e ++ es)) labs = Ok a
          ∧ assess toLowerCase d (report es) labs = Ok b
          ∧ score a = n + score b).
Proof.
  assert (∀ xs ys : list Value, xs ≡ₚ ys →
    assess toLowerCase d (JArr xs) labs = assess toLowerCase d (JArr ys) labs)
    as Hperm.
  { intros xs ys Hxy. rewrite !assess_array.
    pose proof (filterM_length_Permutation
      (matchesCatalog toLowerCase (catalog d)) xs ys Hxy) as Hlen.
    destruct (filterM _ xs) as [kx|ex], (filterM _ ys) as [ky|ey];
      simpl in *; congruence. }
  split; [exact Hperm|]. split.
  - intros es es' Hes. eexists. split; [apply assess_report|].
    rewrite <- (assess_report toLowerCase d es labs).
    symmetry. apply Hperm. unfold report. by apply fmap_Permutation.
  - intros e n es Hin. do 2 eexists.
    split; [apply assess_report|]. split; [apply assess_report|].
    simpl. rewrite fmap_app, fmap_replicate, matchCount_app.
    by rewrite matchCount_replicate.
Qed.

End Order.

(** ** Diagnosis creation and update *)

(** [setFields] leaves alone the fields its update does not name. *)
Lemma setFields_untouched (props doc doc' : gmap string Value) (k : string) :
  setFields (JObj props) doc = Some doc' →
  props !! k = None → doc' !! k = doc !! k.
Proof. intros [= <-] Hk. by rewrite lookup_union_r. Qed.

(** Population changes the populated paths only. *)
Lemma populate_other (resolve : string → string → Value → option Value)
    (paths : list (string * string)) (doc shown : gmap string Value) (k : string) :
  populate resolve paths doc = Some shown →
  k ∉ paths.*1 →
  shown !! k = doc !! k.
Proof.
  revert doc. induction paths as [|[path select] rest IH]; intros doc;
    cbn [populate].
  - by intros [= <-].
  - intros Hshown Hk. rewrite fmap_cons, not_elem_of_cons in Hk.
    destruct Hk as [Hne Hrest]. cbn in Hne.
    destruct (doc !! path) as [ref|]; [|by apply IH].
    destruct (resolve path select ref) as [v|]; [|discriminate].
    cbn in Hshown. rewrite (IH _ Hshown Hrest). by rewrite lookup_insert_ne.
Qed.

Lemma populatedOnWrite_other (k : string) :
  k ≠ "patient" → k ≠ "doctor" → k ≠ "appointment" →
  k ∉ populatedOnWrite.*1.
Proof.
  intros H1 H2 H3. cbn. rewrite !not_elem_of_cons. repeat split; try done.
  apply not_elem_of_nil.
Qed.

Section DiagnosisClaims.

Variable toLowerCase : string → string.
Variable schemaAccepts : gmap string Value → bool.
Variable resolve : string → string → Value → option Value.
Variable castObjectId : string → option string.
Variable updateAccepts : Value → bool.
Variable applyUpdate : Value → gmap string Value → option (gmap string Value).

(** What is asked of the store: an update made of plain field names does not
    touch a stored field that it does not name (the modification time-stamp
    apart, which the store maintains itself). *)
Hypothesis applyUpdate_untouched :
  ∀ (props doc doc' : gmap string Value) (k : string),
    (∀ k', is_Some (props !! k') → plainFieldName k' = true) →
    applyUpdate (JObj props) doc = Some doc' →
    props !! k = None → k ≠ "updatedAt" →
    doc' !! k = doc !! k.

Lemma diagnosisData_assessment (d : Disease) (reqBody doctor bm bt : Value)
    (am at_ : Assessment) :
  diagnosisData reqBody doctor bm bt am at_ !! assessmentKey d
  = Some (JObj (<["riskLevel" :=
                   JStr (riskLevel match d with Malaria => am | Typhoid => at_ end)]>
                 (ownProps match d with Malaria => bm | Typhoid => bt end))).
Proof.
  unfold diagnosisData. destruct d; simpl.
  - rewrite lookup_insert_ne by done. by rewrite lookup_insert_eq.
  - by rewrite lookup_insert_eq.
Qed.

Lemma diagnosisData_doctor (reqBody doctor bm bt : Value) (am at_ : Assessment) :
  diagnosisData reqBody doctor bm bt am at_ !! "doctor" = Some doctor.
Proof.
  unfold diagnosisData.
  rewrite !lookup_insert_ne by done. by rewrite lookup_insert_eq.
Qed.

Lemma diagnosisData_other (reqBody doctor bm bt : Value) (am at_ : Assessment)
    (k : string) :
  k ≠ "doctor" → k ≠ "malariaAssessment" → k ≠ "typhoidAssessment" →
  diagnosisData reqBody doctor bm bt am at_ !! k = ownProps reqBody !! k.
Proof.
  intros H1 H2 H3. unfold diagnosisData. by rewrite !lookup_insert_ne.
Qed.

(** A valid creation request against a store that knows the patient and the
    appointment hands [diagnosisData] to the store: when the schema accepts
    the document it is stored, and then answered 201 with its references
    populated, or passed to [next] if populating fails; when the schema
    does not accept it nothing is stored. *)
Lemma createDiagnosis_created (newId : string) (req : Request) (st : Store)
    (es : list SymptomEntry) (patient appointment doctor : Value) :
  validationErrors req = [] →
  getProp (body req) "patient" = Ok patient →
  findById (patients st) patient = true →
  getProp (body req) "appointment" = Ok appointment →
  findById (appointments st) appointment = true →
  getProp (body req) "symptoms" = Ok (report es) →
  getProp (user req) "id" = Ok doctor →
  let bm := optChain (body req) "malariaAssessment" in
  let bt := optChain (body req) "typhoidAssessment" in
  let am := {| riskLevel :=
                 tierOf (matchCount toLowerCase malariaSymptoms (name <$> es))
                        (positiveTest Malaria (optChain bm "testResults"));
               score := matchCount toLowerCase malariaSymptoms (name <$> es) |} in
  let at_ := {| riskLevel :=
                  tierOf (matchCount toLowerCase typhoidSymptoms (name <$> es))
                         (positiveTest Typhoid (optChain bt "testResults"));
                score := matchCount toLowerCase typhoidSymptoms (name <$> es) |} in
  let data := diagnosisData (body req) doctor bm bt am at_ in
  let st1 := {| patients := patients st; appointments := appointments st;
                diagnoses := <[newId := data]> (diagnoses st) |} in
  createDiagnosis toLowerCase schemaAccepts resolve newId req st
  = if schemaAccepts data then
      match populate resolve populatedOnWrite data with
      | Some shown =>
          (st1,
           Json 201 (Created shown
             {| rec_riskLevel := riskLevel am; rec_score := score am;
                rec_recommendation := malariaRecommendation (riskLevel am) |}
             {| rec_riskLevel := riskLevel at_; rec_score := score at_;
                rec_recommendation := typhoidRecommendation (riskLevel at_) |}))
      | None => (st1, Next Rejected)
      end
    else (st, Next Rejected).
Proof.
  intros Hval Hpat Hpin Happ Hain Hsym Hdoc bm bt am at_ data st1.
  unfold createDiagnosis. rewrite Hval, Hpat, Happ, Hsym. cbn [mbind Result_bind].
  rewrite Hpin, Hain. cbn [negb bool_decide decide_rel].
  rewrite (bool_decide_eq_true_2 _ eq_refl). cbn [negb].
  rewrite (getProp_defined _ _ "malariaAssessment" _ Hsym).
  rewrite (getProp_defined _ _ "typhoidAssessment" _ Hsym).
  cbn [mbind Result_bind].
  pose proof (assess_report toLowerCase Malaria es) as Hm.
  pose proof (assess_report toLowerCase Typhoid es) as Ht.
  cbn [assess catalog] in Hm, Ht. cbv zeta in Hm, Ht.
  rewrite Hm. cbn [mbind Result_bind]. rewrite Ht. cbn [mbind Result_bind].
  rewrite Hdoc. cbn [mbind Result_bind]. unfold Diagnosis_create.
  fold bm bt am at_ data. destruct (schemaAccepts data); [|reflexivity].
  fold st1. by destruct (populate resolve populatedOnWrite data).
Qed.

(** What an update leaves in the place of the addressed document: that
    document itself, or what the store makes of it with the body of the
    request, to which the handler adds nothing. *)
Lemma updateDiagnosis_stores (upd : Request) (st : Store) (key : string)
    (doc : gmap string Value) :
  castObjectId (params_id upd) = Some key →
  diagnoses st !! key = Some doc →
  ∃ doc',
    diagnoses (updateDiagnosis resolve castObjectId updateAccepts applyUpdate upd st).1
      !! key = Some doc'
    ∧ (doc' = doc ∨ applyUpdate (body upd) doc = Some doc').
Proof.
  intros Hkey Hdoc. unfold updateDiagnosis.
  destruct (negb _); [exists doc; by auto|].
  unfold Diagnosis_findByIdAndUpdate. rewrite Hkey. cbn [mbind option_bind].
  destruct (updateAccepts (body upd)); [|exists doc; by auto].
  rewrite Hdoc.
  destruct (applyUpdate (body upd) doc) as [doc'|] eqn:Happly;
    cbn [mbind option_bind]; [|exists doc; by auto].
  exists doc'. split; [|by right].
  destruct (populate _ _ _); cbn; apply lookup_insert_eq.
Qed.

(** The update handler runs no code that raises: the symptom list of an
    update never reaches the scorers, which raise on an ill-formed one. *)
Lemma updateDiagnosis_raises_nothing (upd : Request) (st : Store) (e : Error) :
  (updateDiagnosis resolve castObjectId updateAccepts applyUpdate upd st).2
  ≠ Next (Raised e).
Proof.
  unfold updateDiagnosis. destruct (negb _); [discriminate|].
  destruct (Diagnosis_findByIdAndUpdate _ _ _ _ _ _) as [[st' [updated|]]|];
    try discriminate.
  destruct (populate _ _ _); discriminate.
Qed.


End DiagnosisClaims.

(** ** Concrete instances *)

(** C1 does not hold as stated: a report without any catalog match scores
    0, yet a positive rapid test makes its malaria tier high, not low. *)
Lemma no_match_with_positive_test :
  let es := [ symptomOnly "alien itch" ] in
  Forall (λ e, toLowerCase_latin1 (name e) ∉ catalog Malaria) es
  ∧ assess toLowerCase_latin1 Malaria (report es)
      (JObj {[ "rapidTest" := JStr "positive" ]})
    = Ok {| riskLevel := "high"; score := 0 |}
  ∧ "high" ≠ "low".
Proof.
  split; [|split; [reflexivity|discriminate]].
  repeat constructor. compute_done.
Qed.

Lemma score_counts_catalog_matches_witness :
  ∃ a, assess toLowerCase_latin1 Typhoid (report [ symptomOnly "alien itch" ])
         (JObj {[ "widalTest" := JStr "negative" ]}) = Ok a
    ∧ score a = 0 ∧ riskLevel a = "low".
Proof.
  destruct (score_counts_catalog_matches toLowerCase_latin1 Typhoid
              [ symptomOnly "alien itch" ]
              (JObj {[ "widalTest" := JStr "negative" ]}))
    as (_ & _ & a & Ha & _ & Hnone).
  exists a. split; [exact Ha|].
  destruct Hnone as [Hzero Hlow].
  - repeat constructor. compute_done.
  - split; [exact Hzero|]. apply Hlow. intros [H|H]; discriminate H.
Defined.

Lemma tier_precedence_witness :
  ∃ a, assess toLowerCase_latin1 Malaria (report [ symptomOnly "alien itch" ])
         (JObj {[ "microscopy" := JStr "positive" ]}) = Ok a
    ∧ score a = 0 ∧ riskLevel a = "high".
Proof.
  destruct (tier_precedence toLowerCase_latin1 Malaria
              [ symptomOnly "alien itch" ]
              (JObj {[ "microscopy" := JStr "positive" ]}))
    as (a & Ha & Hscore & _ & _ & _ & Hpos & _).
  exists a. split; [exact Ha|]. split; [exact Hscore|].
  apply Hpos. right. reflexivity.
Defined.

Lemma lab_match_is_exact_witness :
  (∃ a a0,
     assess toLowerCase_latin1 Malaria
       (report [ symptomOnly "fever"; symptomOnly "chills" ])
       (JObj {[ "rapidTest" := JStr "positive" ]}) = Ok a
     ∧ assess toLowerCase_latin1 Malaria
         (report [ symptomOnly "fever"; symptomOnly "chills" ]) JUndefined = Ok a0
     ∧ score a = 2 ∧ riskLevel a = "high" ∧ riskLevel a0 ≠ "high")
  ∧ (∃ a,
       assess toLowerCase_latin1 Malaria
         (report [ symptomOnly "fever"; symptomOnly "chills" ])
         (JObj {[ "rapidTest" := JStr "Positive" ]}) = Ok a
       ∧ riskLevel a ≠ "high"
       ∧ assess toLowerCase_latin1 Malaria
           (report [ symptomOnly "FEVER"; symptomOnly "Chills" ])
           (JObj {[ "rapidTest" := JStr "Positive" ]}) = Ok a).
Proof.
  split.
  - destruct (lab_match_is_exact toLowerCase_latin1 Malaria
                [ symptomOnly "fever"; symptomOnly "chills" ]
                (JObj {[ "rapidTest" := JStr "positive" ]}))
      as (a & a0 & Ha & Ha0 & Hscore & _ & Hhigh0 & _ & Hpos & _).
    exists a, a0. split; [exact Ha|]. split; [exact Ha0|].
    split; [rewrite Hscore; reflexivity|].
    split; [apply Hpos; left; reflexivity|].
    intros Hh. apply Hhigh0 in Hh. vm_compute in Hh. lia.
  - destruct (lab_match_is_exact toLowerCase_latin1 Malaria
                [ symptomOnly "fever"; symptomOnly "chills" ]
                (JObj {[ "rapidTest" := JStr "Positive" ]}))
      as (a & a0 & Ha & _ & _ & _ & _ & Hhigh & _ & _ & Hcase).
    exists a. split; [exact Ha|]. split.
    + intros Hh. apply Hhigh in Hh as [Hfive|[Hfirst|Hsecond]].
      * vm_compute in Hfive. lia.
      * discriminate Hfirst.
      * discriminate Hsecond.
    + apply Hcase. reflexivity.
Defined.


Lemma matching_symptoms_subsequence_witness :
  ∃ r, resultFor Typhoid
         (getExpertSystemAssessment toLowerCase_latin1
            (assessing (report [ symptomOnly "Rash"; symptomOnly "chills";
                                 withSeverity "RASH" "mild" ]) JUndefined))
       = Some r
    ∧ res_matchingSymptoms r = [ JStr "Rash"; JStr "RASH" ]
    ∧ res_score r = 2.
Proof.
  destruct (matching_symptoms_subsequence toLowerCase_latin1 Typhoid
              (assessing (report [ symptomOnly "Rash"; symptomOnly "chills";
                                   withSeverity "RASH" "mild" ]) JUndefined)
              [ symptomOnly "Rash"; symptomOnly "chills"; withSeverity "RASH" "mild" ])
    as (r & Hr & Hmatch & _ & Hlen); [discriminate|reflexivity|].
  exists r. split; [exact Hr|]. split; [exact Hmatch|].
  rewrite <- Hlen, Hmatch. reflexivity.
Defined.

Lemma result_depends_on_names_and_own_labs_witness :
  ∃ r, resultFor Malaria
         (getExpertSystemAssessment toLowerCase_latin1
            (assessing (report [ withSeverity "fever" "mild" ])
               (JObj {[ "typhoid" := JObj {[ "widalTest" := JStr "positive" ]} ]})))
       = Some r
    ∧ resultFor Malaria
         (getExpertSystemAssessment toLowerCase_latin1
            (assessing (report [ withSeverity "fever" "severe" ]) JUndefined))
       = Some r.
Proof.
  apply (result_depends_on_names_and_own_labs toLowerCase_latin1 Malaria
           (assessing (report [ withSeverity "fever" "mild" ])
              (JObj {[ "typhoid" := JObj {[ "widalTest" := JStr "positive" ]} ]}))
           (assessing (report [ withSeverity "fever" "severe" ]) JUndefined)
           [ withSeverity "fever" "mild" ] [ withSeverity "fever" "severe" ]);
    [discriminate|reflexivity..].
Defined.

Lemma recommendation_by_tier_witness :
  ∃ m t,
    getExpertSystemAssessment toLowerCase_latin1
      (assessing (report [ symptomOnly "fever" ]) JUndefined)
    = Json 200 (Assessed m t)
    ∧ res_riskLevel m ∈ tiers
    ∧ res_recommendation m = malariaRecommendation (res_riskLevel m)
    ∧ res_recommendation t = typhoidRecommendation (res_riskLevel t).
Proof.
  pose proof (getExpertSystemAssessment_report toLowerCase_latin1
                (assessing (report [ symptomOnly "fever" ]) JUndefined)
                [ symptomOnly "fever" ] ltac:(discriminate) eq_refl) as Hresp.
  do 2 eexists. split; [exact Hresp|].
  destruct (recommendation_by_tier toLowerCase_latin1) as (_ & Hassess & _).
  destruct (Hassess _ _ _ _ Hresp) as (Hm & _ & Hrm & Hrt).
  split; [exact Hm|]. split; [exact Hrm|exact Hrt].
Defined.

Lemma scoring_ignores_order_witness :
  (∃ a, assess toLowerCase_latin1 Malaria
          (report [ symptomOnly "fever"; symptomOnly "rash" ]) JUndefined = Ok a
      ∧ assess toLowerCase_latin1 Malaria
          (report [ symptomOnly "rash"; symptomOnly "fever" ]) JUndefined = Ok a)
  ∧ ∃ a b, assess toLowerCase_latin1 Malaria
             (report (replicate 5 (symptomOnly "fever") ++ [ symptomOnly "rash" ]))
             JUndefined = Ok a
         ∧ assess toLowerCase_latin1 Malaria
             (report [ symptomOnly "rash" ]) JUndefined = Ok b
         ∧ score a = 5 + score b.
Proof.
  destruct (scoring_ignores_order toLowerCase_latin1 Malaria JUndefined)
    as (_ & Hperm & Hdup).
  split.
  - apply Hperm. apply perm_swap.
  - apply Hdup. compute_done.
Defined.



(** ** The scenarios of the specification, evaluated *)

Example scenario_five_malaria_symptoms :
  getExpertSystemAssessment toLowerCase_latin1
    (assessing
       (report [ symptomOnly "fever"; symptomOnly "chills"; symptomOnly "headache";
                 symptomOnly "nausea"; symptomOnly "vomiting" ])
       JUndefined)
  = Json 200 (Assessed
      {| res_riskLevel := "high"; res_score := 5;
         res_matchingSymptoms :=
           [ JStr "fever"; JStr "chills"; JStr "headache"; JStr "nausea";
             JStr "vomiting" ];
         res_recommendation := "Immediate malaria testing and treatment recommended" |}
      {| res_riskLevel := "low"; res_score := 2;
         res_matchingSymptoms := [ JStr "fever"; JStr "headache" ];
         res_recommendation := "Low typhoid risk" |}).
Proof. reflexivity. Qed.

Example scenario_positive_rapid_test :
  getExpertSystemAssessment toLowerCase_latin1
    (assessing (report [ symptomOnly "fever" ])
       (JObj {[ "malaria" := JObj {[ "rapidTest" := JStr "positive" ]} ]}))
  = Json 200 (Assessed
      {| res_riskLevel := "high"; res_score := 1;
         res_matchingSymptoms := [ JStr "fever" ];
         res_recommendation := "Immediate malaria testing and treatment recommended" |}
      {| res_riskLevel := "low"; res_score := 1;
         res_matchingSymptoms := [ JStr "fever" ];
         res_recommendation := "Low typhoid risk" |}).
Proof. reflexivity. Qed.

Example scenario_empty_symptoms :
  getExpertSystemAssessment toLowerCase_latin1 (assessing (JArr []) JUndefined)
  = Json 400 (Failure "Symptoms array is required" None).
Proof. reflexivity. Qed.

Example scenario_mixed_case :
  getExpertSystemAssessment toLowerCase_latin1
    (assessing
       (report [ symptomOnly "FEVER"; symptomOnly "Headache"; symptomOnly "Weakness" ])
       JUndefined)
  = Json 200 (Assessed
      {| res_riskLevel := "low"; res_score := 2;
         res_matchingSymptoms := [ JStr "FEVER"; JStr "Headache" ];
         res_recommendation := "Low malaria risk" |}
      {| res_riskLevel := "moderate"; res_score := 3;
         res_matchingSymptoms := [ JStr "FEVER"; JStr "Headache"; JStr "Weakness" ];
         res_recommendation := "Consider typhoid testing" |}).
Proof. reflexivity. Qed.

Example scenario_unknown_symptom :
  getExpertSystemAssessment toLowerCase_latin1
    (assessing (report [ symptomOnly "alien itch" ]) JUndefined)
  = Json 200 (Assessed
      {| res_riskLevel := "low"; res_score := 0; res_matchingSymptoms := [];
         res_recommendation := "Low malaria risk" |}
      {| res_riskLevel := "low"; res_score := 0; res_matchingSymptoms := [];
         res_recommendation := "Low typhoid risk" |}).
Proof. reflexivity. Qed.

(** An entry without a name, or whose name is not a string, makes the
    callback of [filter] throw; the error reaches [next]. An empty name is a
    string like any other. *)
Example entry_without_name :
  getExpertSystemAssessment toLowerCase_latin1
    (assessing (JArr [ JObj {[ "severity" := JStr "mild" ]} ]) JUndefined)
  = Next (Raised TypeError)
  ∧ getExpertSystemAssessment toLowerCase_latin1
      (assessing (JArr [ JObj {[ "symptom" := JNum 7 ]} ]) JUndefined)
    = Next (Raised TypeError)
  ∧ ∃ m t, getExpertSystemAssessment toLowerCase_latin1
             (assessing (report [ symptomOnly "" ]) JUndefined)
           = Json 200 (Assessed m t).
Proof. repeat split. by do 2 eexists. Qed.

(** The standalone endpoint does not read the recorded validation errors. *)
Lemma getExpertSystemAssessment_ignores_validationErrors
    (toLowerCase : string → string) (req : Request) (errs : list ValidationError) :
  getExpertSystemAssessment toLowerCase
    {| body := body req; params_id := params_id req; user := user req;
       validationErrors := errs |}
  = getExpertSystemAssessment toLowerCase req.
Proof. reflexivity. Qed.

(** C6 fails on the code: the request with the invalid severity is answered
    200 with both assessments by the standalone endpoint, although its
    validation chain has flagged it; the sibling handlers reject it. *)
Theorem invalid_severity_is_assessed :
  getExpertSystemAssessment toLowerCase_latin1 invalid_severity
  = Json 200 (Assessed
      {| res_riskLevel := "low"; res_score := 1;
         res_matchingSymptoms := [ JStr "fever" ];
         res_recommendation := "Low malaria risk" |}
      {| res_riskLevel := "low"; res_score := 1;
         res_matchingSymptoms := [ JStr "fever" ];
         res_recommendation := "Low typhoid risk" |})
  ∧ snd (createDiagnosis toLowerCase_latin1 passesDiagnosisSchema shownById
           "64d2f0a1b2c3d4e5f6a7b8c9" invalid_severity clinic)
    = Json 400 (Failure "Validation failed" (Some (validationErrors invalid_severity)))
  ∧ snd (updateDiagnosis shownById hexObjectId passesUpdateValidators setFields
           invalid_severity clinic)
    = Json 400 (Failure "Validation failed" (Some (validationErrors invalid_severity))).
Proof. repeat split; vm_compute; reflexivity. Qed.

(** * Further properties *)

(** ** The scorers *)

Lemma tierRank_tierOf_mono (n m : nat) (p q : bool) :
  n ≤ m → (p = true → q = true) →
  tierRank (tierOf n p) ≤ tierRank (tierOf m q).
Proof.
  intros Hnm Hpq. unfold tierOf.
  destruct (Nat.leb_spec 5 n), (Nat.leb_spec 5 m), (Nat.leb_spec 3 n),
    (Nat.leb_spec 3 m), p, q; simpl; try lia;
    try (by discriminate Hpq); vm_compute; lia.
Qed.

Lemma matchCount_sublist (toLowerCase : string → string) (cat : list string)
    (ns ms : list string) :
  ns `sublist_of` ms → matchCount toLowerCase cat ns ≤ matchCount toLowerCase cat ms.
Proof.
  unfold matchCount. induction 1 as [|x ns ms _ IH|x ns ms _ IH].
  - done.
  - rewrite !filter_cons. destruct (decide _); simpl; lia.
  - rewrite filter_cons. destruct (decide _); simpl; lia.
Qed.

Lemma matchCount_le_length (toLowerCase : string → string) (cat : list string)
    (ns : list string) :
  matchCount toLowerCase cat ns ≤ length ns.
Proof. apply length_filter. Qed.

(** X1: more entries never lower a score or a tier, and lab results never
    lower the tier that the symptoms alone give. *)
Theorem assessment_monotone (toLowerCase : string → string) (d : Disease)
    (es es' : list SymptomEntry) (labs : Value) :
  es `sublist_of` es' →
  ∃ a a' a0,
    assess toLowerCase d (report es) labs = Ok a
    ∧ assess toLowerCase d (report es') labs = Ok a'
    ∧ assess toLowerCase d (report es) JUndefined = Ok a0
    ∧ score a ≤ score a'
    ∧ tierRank (riskLevel a) ≤ tierRank (riskLevel a')
    ∧ score a0 = score a
    ∧ tierRank (riskLevel a0) ≤ tierRank (riskLevel a).
Proof.
  intros Hsub. do 3 eexists.
  split; [apply assess_report|]. split; [apply assess_report|].
  split; [apply assess_report|]. cbn [score riskLevel].
  assert (matchCount toLowerCase (catalog d) (name <$> es)
          ≤ matchCount toLowerCase (catalog d) (name <$> es')) as Hle.
  { apply matchCount_sublist. by apply fmap_sublist. }
  split; [exact Hle|]. split; [by apply tierRank_tierOf_mono|].
  split; [reflexivity|]. apply tierRank_tierOf_mono; [lia|].
  by destruct d.
Qed.

(** X2: the score of a report is at most its number of entries, the score of
    two reports put together is the sum of their scores, and a report of
    fewer than three entries is low unless a confirmatory test is positive. *)
Theorem score_additive_and_bounded (toLowerCase : string → string) (d : Disease)
    (es es' : list SymptomEntry) (labs : Value) :
  ∃ a a' b,
    assess toLowerCase d (report es) labs = Ok a
    ∧ assess toLowerCase d (report es') labs = Ok a'
    ∧ assess toLowerCase d (report (es ++ es')) labs = Ok b
    ∧ score b = score a + score a'
    ∧ score a ≤ length es
    ∧ (length es < 3 → ¬ confirmedPositive d labs → riskLevel a = "low").
Proof.
  do 3 eexists.
  split; [apply assess_report|]. split; [apply assess_report|].
  split; [apply assess_report|]. cbn [score riskLevel].
  split; [by rewrite fmap_app, matchCount_app|].
  pose proof (matchCount_le_length toLowerCase (catalog d) (name <$> es)) as Hle.
  rewrite length_fmap in Hle. split; [exact Hle|].
  intros Hshort Hneg. apply tierOf_low. split; [|lia].
  rewrite positiveTest_true. intros [?|?]; [lia|done].
Qed.

(** X4: a scorer reads its two confirmatory tests only: any other field of
    the lab results (the parasite count, the stool culture and the typhiDot
    test that the schema records too) leaves the assessment as it is, and lab
    results that are not an object count as absent. *)
Theorem other_lab_fields_ignored (toLowerCase : string → string) (d : Disease)
    (symptoms : Value) :
  (∀ (props : gmap string Value) (k : string) (v : Value),
     k ≠ firstTest d → k ≠ secondTest d →
     assess toLowerCase d symptoms (JObj (<[k := v]> props))
     = assess toLowerCase d symptoms (JObj props))
  ∧ (∀ labs : Value, (∀ props, labs ≠ JObj props) →
     assess toLowerCase d symptoms labs
     = assess toLowerCase d symptoms JUndefined).
Proof.
  split.
  - intros props k v H1 H2.
    destruct d; simpl in *; unfold assessMalariaRisk, assessTyphoidRisk;
      cbn [optChain]; by rewrite !lookup_insert_ne.
  - intros labs Hlabs.
    destruct d, labs as [ | | ? | ? | ? | ? | props ]; try reflexivity;
      by destruct (Hlabs props).
Qed.

(** ** Ill-formed entries *)

Lemma hasName_entry (e : SymptomEntry) : hasName (entry e) = true.
Proof. unfold entry. simpl. by rewrite lookup_insert_eq. Qed.

Lemma hasName_true (s : Value) :
  hasName s = true → ∃ e, s = entry e.
Proof.
  destruct s as [ | | ? | ? | ? | ? | props ]; try discriminate. simpl.
  destruct (props !! "symptom") as [[ | | ? | ? | n | ? | ? ]|] eqn:Hn;
    try discriminate.
  intros _. eexists. by apply entry_well_formed.
Qed.

Lemma Forall_hasName (xs : list Value) :
  Forall (λ s, hasName s = true) xs ↔ ∃ es, xs = entry <$> es.
Proof.
  split.
  - induction 1 as [|x xs Hx _ [es ->]]; [by exists []|].
    destruct (hasName_true x Hx) as [e ->]. by exists (e :: es).
  - intros [es ->]. apply Forall_fmap, Forall_true. intros e. apply hasName_entry.
Qed.

Section IllFormed.

Variable toLowerCase : string → string.

Lemma matchesCatalog_throws (cat : list string) (s : Value) :
  hasName s = false → matchesCatalog toLowerCase cat s = Throw TypeError.
Proof.
  unfold matchesCatalog.
  destruct s as [ | | ? | ? | ? | ? | props ]; try reflexivity. simpl.
  by destruct (props !! "symptom") as [[ | | ? | ? | n | ? | ? ]|].
Qed.

Lemma filterM_throws (cat : list string) (xs : list Value) :
  Exists (λ s, hasName s = false) xs →
  filterM (matchesCatalog toLowerCase cat) xs = Throw TypeError.
Proof.
  induction 1 as [x xs Hx|x xs _ IH]; cbn [filterM].
  - by rewrite matchesCatalog_throws.
  - destruct (matchesCatalog _ _ x) as [b|[]]; [|reflexivity].
    cbn [mbind Result_bind]. by rewrite IH.
Qed.

Lemma assess_throws (d : Disease) (xs : list Value) (labs : Value) :
  Exists (λ s, hasName s = false) xs →
  assess toLowerCase d (JArr xs) labs = Throw TypeError.
Proof. intros Hbad. rewrite assess_array. by rewrite filterM_throws. Qed.

Lemma not_all_named (xs : list Value) :
  ¬ Forall (λ s, hasName s = true) xs ↔ Exists (λ s, hasName s = false) xs.
Proof.
  induction xs as [|x xs IH].
  - split; [intros H; by destruct H|intros H; inversion H].
  - rewrite Forall_cons, Exists_cons, <- IH.
    destruct (hasName x); split; try tauto.
    + intros [?|?]; [done|tauto].
    + intros _ [? _]. done.
Qed.

(** A scorer returns exactly on the arrays whose entries all have a name. *)
Lemma assess_Ok_report (d : Disease) (symptoms labs : Value) (a : Assessment) :
  assess toLowerCase d symptoms labs = Ok a →
  ∃ es, symptoms = report es.
Proof.
  destruct symptoms as [ | | ? | ? | ? | xs | ? ]; try (destruct d; discriminate).
  intros Hok.
  destruct (decide (Forall (λ s, hasName s = true) xs)) as [Hall|Hbad].
  - apply Forall_hasName in Hall as [es ->]. by exists es.
  - apply not_all_named in Hbad. by rewrite (assess_throws _ _ _ Hbad) in Hok.
Qed.

Lemma getExpertSystemAssessment_throws (req : Request) (x : Value) (xs : list Value) :
  getProp (body req) "symptoms" = Ok (JArr (x :: xs)) →
  Exists (λ s, hasName s = false) (x :: xs) →
  getExpertSystemAssessment toLowerCase req = Next (Raised TypeError).
Proof.
  intros Hsym Hbad. unfold getExpertSystemAssessment.
  rewrite Hsym, (getProp_defined _ _ "testResults" _ Hsym).
  cbn [mbind Result_bind falsy isArray lengthIsZero negb orb].
  pose proof (assess_throws Malaria (x :: xs)
    (optChain (optChain (body req) "testResults") "malaria") Hbad) as Hm.
  cbn [assess] in Hm. by rewrite Hm.
Qed.

(** X3: for a parsed body the standalone endpoint has three outcomes: 200
    with both assessments exactly when [symptoms] is a non-empty array all of
    whose entries are objects with a string [symptom]; the error handler
    ([next] with a TypeError) exactly when it is a non-empty array with an
    entry that is not; 400 exactly when it is no non-empty array. *)
Theorem assessment_endpoint_outcomes (req : Request) (symptoms : Value) :
  getProp (body req) "symptoms" = Ok symptoms →
  ((∃ m t, getExpertSystemAssessment toLowerCase req = Json 200 (Assessed m t))
   ↔ ∃ x xs, symptoms = JArr (x :: xs)
           ∧ Forall (λ s, hasName s = true) (x :: xs))
  ∧ (getExpertSystemAssessment toLowerCase req = Next (Raised TypeError)
     ↔ ∃ x xs, symptoms = JArr (x :: xs)
             ∧ Exists (λ s, hasName s = false) (x :: xs))
  ∧ (getExpertSystemAssessment toLowerCase req
     = Json 400 (Failure "Symptoms array is required" None)
     ↔ ∀ x xs, symptoms ≠ JArr (x :: xs)).
Proof.
  intros Hsym.
  assert ((∀ x xs, symptoms ≠ JArr (x :: xs))
          ∨ ∃ x xs, symptoms = JArr (x :: xs)) as [Hnone|(x & xs & ->)].
  { destruct symptoms as [ | | ? | ? | ? | [|x xs] | ? ]; eauto; by left. }
  - rewrite (getExpertSystemAssessment_rejects _ _ _ Hsym Hnone).
    split; [|split].
    + split; [by intros (m & t & [=])|]. intros (x & xs & -> & _).
      by destruct (Hnone x xs).
    + split; [discriminate|]. intros (x & xs & -> & _). by destruct (Hnone x xs).
    + done.
  - destruct (decide (Forall (λ s, hasName s = true) (x :: xs))) as [Hall|Hbad].
    + destruct (proj1 (Forall_hasName _) Hall) as [es Hes].
      assert (es ≠ []) as Hne by (intros ->; discriminate).
      rewrite Hes in Hsym. fold (report es) in Hsym.
      rewrite (getExpertSystemAssessment_report _ _ _ Hne Hsym).
      split; [|split].
      * split; [|by eauto]. intros _. exists x, xs. split; [reflexivity|exact Hall].
      * split; [discriminate|]. intros (x' & xs' & [= <- <-] & Hex).
        apply not_all_named in Hex. by destruct Hex.
      * split; [discriminate|]. intros Hno. by destruct (Hno x xs).
    + pose proof (proj1 (not_all_named _) Hbad) as Hex.
      rewrite (getExpertSystemAssessment_throws _ _ _ Hsym Hex).
      split; [|split].
      * split; [by intros (m & t & [=])|].
        intros (x' & xs' & [= <- <-] & Hall). by destruct Hbad.
      * split; [|done]. intros _. by exists x, xs.
      * split; [discriminate|]. intros Hno. by destruct (Hno x xs).
Qed.

End IllFormed.

(** ** What the diagnosis handlers write *)

Section Writes.

Variable toLowerCase : string → string.
Variable schemaAccepts : gmap string Value → bool.
Variable resolve : string → string → Value → option Value.
Variable castObjectId : string → option string.
Variable updateAccepts : Value → bool.
Variable applyUpdate : Value → gmap string Value → option (gmap string Value).

(** Either [createDiagnosis] leaves the store alone and answers with a
    failure or an error, or it has stored a document that the schema accepts,
    and answers 201 with that document populated, or with the error of the
    population. *)
Lemma createDiagnosis_cases (newId : string) (req : Request) (st st' : Store)
    (resp : Response) :
  createDiagnosis toLowerCase schemaAccepts resolve newId req st = (st', resp) →
  (st' = st
   ∧ (resp = Next Rejected
      ∨ (∃ e, resp = Next (Raised e))
      ∨ ∃ status error details,
          resp = Json status (Failure error details)
          ∧ (status = 400 ∨ status = 404)))
  ∨ (∃ data es patient appointment doctor,
       schemaAccepts data = true
       ∧ st' = {| patients := patients st; appointments := appointments st;
                  diagnoses := <[newId := data]> (diagnoses st) |}
       ∧ validationErrors req = []
       ∧ getProp (body req) "patient" = Ok patient
       ∧ findById (patients st) patient = true
       ∧ getProp (body req) "appointment" = Ok appointment
       ∧ findById (appointments st) appointment = true
       ∧ getProp (body req) "symptoms" = Ok (report es)
       ∧ getProp (user req) "id" = Ok doctor
       ∧ (populate resolve populatedOnWrite data = None ∧ resp = Next Rejected
          ∨ ∃ shown m t,
              populate resolve populatedOnWrite data = Some shown
              ∧ resp = Json 201 (Created shown m t))).
Proof.
  unfold createDiagnosis.
  destruct (validationErrors req) as [|err errs] eqn:Hval;
    [|intros [= <- <-]; left; split; [done|]; right; right; by eauto 10].
  cbn [bool_decide decide_rel negb].
  rewrite (bool_decide_eq_true_2 _ eq_refl). cbn [negb].
  destruct (getProp (body req) "patient") as [patient|] eqn:Hpat;
    [|intros [= <- <-]; left; by eauto].
  destruct (getProp (body req) "appointment") as [appointment|] eqn:Happ;
    [|intros [= <- <-]; left; by eauto].
  destruct (getProp (body req) "symptoms") as [symptoms|] eqn:Hsym;
    [|intros [= <- <-]; left; by eauto].
  cbn [mbind Result_bind].
  destruct (findById (patients st) patient) eqn:Hpin;
    [|intros [= <- <-]; left; split; [done|]; right; right; by eauto 10].
  destruct (findById (appointments st) appointment) eqn:Hain;
    [|intros [= <- <-]; left; split; [done|]; right; right; by eauto 10].
  cbn [negb].
  destruct (getProp (body req) "malariaAssessment") as [bm|];
    [|intros [= <- <-]; left; by eauto].
  cbn [mbind Result_bind].
  destruct (assessMalariaRisk _ symptoms _) as [am|] eqn:Hm;
    [|intros [= <- <-]; left; by eauto].
  destruct (getProp (body req) "typhoidAssessment") as [bt|];
    [|intros [= <- <-]; left; by eauto].
  cbn [mbind Result_bind].
  destruct (assessTyphoidRisk _ symptoms _) as [at_|];
    [|intros [= <- <-]; left; by eauto].
  cbn [mbind Result_bind].
  destruct (getProp (user req) "id") as [doctor|] eqn:Hdoc;
    [|intros [= <- <-]; left; by eauto].
  cbn [mbind Result_bind]. unfold Diagnosis_create.
  destruct (schemaAccepts _) eqn:Hacc; [|intros [= <- <-]; left; by eauto].
  destruct (assess_Ok_report toLowerCase Malaria _ _ _ Hm) as [es ->].
  destruct (populate resolve populatedOnWrite _) as [shown|] eqn:Hshown;
    intros [= <- <-]; right; do 5 eexists;
    (split; [exact Hacc|]); (split; [reflexivity|]);
    repeat (split; [eassumption || reflexivity|]).
  - right. by eauto.
  - by left.
Qed.

(** X6: diagnosis creation writes at most one document, and can leave it
    behind an error: whatever the request, patients and appointments are
    untouched and so is every diagnosis but the new one; an answer 400 or 404
    and an error raised by the handler leave the store as it was; an answer
    with a created diagnosis is 201, the store then holds under the new
    identifier a document that the schema accepts, and the answer shows it
    populated; the store changes in no other case than that one and the one
    in which populating the stored document fails, where the error of the
    population is passed on although the document is stored. *)
Theorem creation_writes_one_document (newId : string) (req : Request)
    (st st' : Store) (resp : Response) :
  createDiagnosis toLowerCase schemaAccepts resolve newId req st = (st', resp) →
  patients st' = patients st
  ∧ appointments st' = appointments st
  ∧ (∀ id, id ≠ newId → diagnoses st' !! id = diagnoses st !! id)
  ∧ (∀ status error details, resp = Json status (Failure error details) → st' = st)
  ∧ (∀ e, resp = Next (Raised e) → st' = st)
  ∧ (∀ status shown m t, resp = Json status (Created shown m t) →
       status = 201
       ∧ ∃ data, diagnoses st' !! newId = Some data
           ∧ schemaAccepts data = true
           ∧ populate resolve populatedOnWrite data = Some shown)
  ∧ (st' ≠ st →
       ∃ data, diagnoses st' = <[newId := data]> (diagnoses st)
         ∧ schemaAccepts data = true
         ∧ (populate resolve populatedOnWrite data = None ∧ resp = Next Rejected
            ∨ ∃ shown m t, populate resolve populatedOnWrite data = Some shown
                ∧ resp = Json 201 (Created shown m t))).
Proof.
  intros Hcreate.
  destruct (createDiagnosis_cases _ _ _ _ _ Hcreate)
    as [[-> Hresp]|(data & es & p & a & doc & Hacc & -> & _ & _ & _ & _ & _ & _ & _
                    & Hresp)].
  - split; [reflexivity|]. split; [reflexivity|]. split; [reflexivity|].
    split; [reflexivity|]. split; [reflexivity|]. split; [|done].
    intros status shown m t ->.
    destruct Hresp as [?|[[e ?]|(? & ? & ? & ? & _)]]; discriminate.
  - cbn. split; [reflexivity|]. split; [reflexivity|].
    split; [intros id Hid; by rewrite lookup_insert_ne|].
    split; [intros status error details ->;
            destruct Hresp as [[_ ?]|(? & ? & ? & _ & ?)]; discriminate|].
    split; [intros e ->;
            destruct Hresp as [[_ ?]|(? & ? & ? & _ & ?)]; discriminate|].
    split.
    + intros status shown m t ->.
      destruct Hresp as [[_ ?]|(shown' & m' & t' & Hshown & [= <- <- <- <-])];
        [discriminate|].
      split; [reflexivity|]. exists data. by rewrite lookup_insert_eq.
    + intros _. exists data. split; [reflexivity|]. split; [exact Hacc|].
      destruct Hresp as [[? ?]|(shown & m & t & ? & ?)]; [by left|].
      right. by exists shown, m, t.
Qed.

(** X7: the checks of diagnosis creation come in a fixed order, and none of
    them writes: recorded validation errors give 400 whatever the body is; then
    an unknown patient gives 404 "Patient not found" whatever the rest is;
    then an unknown appointment gives 404 "Appointment not found"; only then
    are the symptoms scored, and an entry without a string [symptom] sends a
    TypeError to the error handler. *)
Theorem creation_checks_in_order (newId : string) (req : Request) (st : Store) :
  (validationErrors req ≠ [] →
   createDiagnosis toLowerCase schemaAccepts resolve newId req st
   = (st, Json 400 (Failure "Validation failed" (Some (validationErrors req)))))
  ∧ (∀ patient, validationErrors req = [] →
     getProp (body req) "patient" = Ok patient →
     findById (patients st) patient = false →
     createDiagnosis toLowerCase schemaAccepts resolve newId req st
     = (st, Json 404 (Failure "Patient not found" None)))
  ∧ (∀ patient, validationErrors req = [] →
     getProp (body req) "patient" = Ok patient →
     findById (patients st) patient = true →
     findById (appointments st) (optChain (body req) "appointment") = false →
     createDiagnosis toLowerCase schemaAccepts resolve newId req st
     = (st, Json 404 (Failure "Appointment not found" None)))
  ∧ (∀ patient xs, validationErrors req = [] →
     getProp (body req) "patient" = Ok patient →
     findById (patients st) patient = true →
     findById (appointments st) (optChain (body req) "appointment") = true →
     optChain (body req) "symptoms" = JArr xs →
     Exists (λ s, hasName s = false) xs →
     createDiagnosis toLowerCase schemaAccepts resolve newId req st
     = (st, Next (Raised TypeError))).
Proof.
  unfold createDiagnosis. split; [|split; [|split]].
  - intros Herr. by destruct (validationErrors req).
  - intros patient -> Hpat Hpin.
    rewrite Hpat, !(getProp_defined _ _ _ _ Hpat). cbn [mbind Result_bind].
    by rewrite Hpin.
  - intros patient -> Hpat Hpin Hain.
    rewrite Hpat, !(getProp_defined _ _ _ _ Hpat). cbn [mbind Result_bind].
    by rewrite Hpin, Hain.
  - intros patient xs -> Hpat Hpin Hain Hsym Hbad.
    rewrite Hpat, !(getProp_defined _ _ _ _ Hpat). cbn [mbind Result_bind].
    rewrite Hpin, Hain, Hsym. cbn [negb bool_decide decide_rel].
    rewrite (bool_decide_eq_true_2 _ eq_refl). cbn [negb mbind Result_bind].
    pose proof (assess_throws toLowerCase Malaria xs
      (optChain (optChain (body req) "malariaAssessment") "testResults") Hbad) as Hm.
    cbn [assess] in Hm. by rewrite Hm.
Qed.

(** X5: diagnosis creation and the standalone endpoint agree: for the same
    symptoms, and lab results under [malariaAssessment.testResults] and
    [typhoidAssessment.testResults] equal to those under [testResults.malaria]
    and [testResults.typhoid], the recommendations that come with a created
    diagnosis carry the tier, score and text that the endpoint answers. *)
Theorem creation_agrees_with_assessment (newId : string) (creation asking : Request)
    (st st' : Store) (status : nat) (data : gmap string Value)
    (m t : Recommendation) (symptoms : Value) :
  createDiagnosis toLowerCase schemaAccepts resolve newId creation st
  = (st', Json status (Created data m t)) →
  getProp (body creation) "symptoms" = Ok symptoms →
  getProp (body asking) "symptoms" = Ok symptoms →
  symptoms ≠ JArr [] →
  optChain (optChain (body asking) "testResults") "malaria"
  = optChain (optChain (body creation) "malariaAssessment") "testResults" →
  optChain (optChain (body asking) "testResults") "typhoid"
  = optChain (optChain (body creation) "typhoidAssessment") "testResults" →
  ∃ m' t',
    getExpertSystemAssessment toLowerCase asking = Json 200 (Assessed m' t')
    ∧ res_riskLevel m' = rec_riskLevel m ∧ res_score m' = rec_score m
    ∧ res_recommendation m' = rec_recommendation m
    ∧ res_riskLevel t' = rec_riskLevel t ∧ res_score t' = rec_score t
    ∧ res_recommendation t' = rec_recommendation t.
Proof.
  intros Hcreate Hsc Hsa Hne Hlm Hlt.
  destruct (createDiagnosis_cases _ _ _ _ _ Hcreate)
    as [[_ Hnot]|(data' & es & p & a & doc & _ & _
                  & Hval & Hpat & Hpin & Happ & Hain & Hsym & Hdoc & _)].
  { destruct Hnot as [?|[[e ?]|(? & ? & ? & ? & _)]]; discriminate. }
  rewrite Hsym in Hsc. injection Hsc as <-.
  assert (es ≠ []) as Hes by (intros ->; by destruct Hne).
  rewrite (createDiagnosis_created toLowerCase schemaAccepts resolve newId creation
             st es p a doc Hval Hpat Hpin Happ Hain Hsym Hdoc) in Hcreate.
  cbv zeta in Hcreate. destruct (schemaAccepts _); [|discriminate].
  destruct (populate _ _ _); [|discriminate].
  injection Hcreate as _ _ _ <- <-.
  rewrite (getExpertSystemAssessment_report toLowerCase asking es Hes Hsa).
  do 2 eexists. split; [reflexivity|]. rewrite Hlm, Hlt. by repeat split.
Qed.

(** Either an update leaves the store alone and answers with a failure or
    with the rejection of the store, or it has put the updated document in
    the place of the addressed one, and answers 200 with that document
    populated, or with the error of the population. *)
Lemma updateDiagnosis_cases (req : Request) (st st' : Store) (resp : Response) :
  updateDiagnosis resolve castObjectId updateAccepts applyUpdate req st = (st', resp) →
  (st' = st
   ∧ (resp = Json 400 (Failure "Validation failed" (Some (validationErrors req)))
        ∧ validationErrors req ≠ []
      ∨ validationErrors req = []
        ∧ (resp = Next Rejected
             ∧ (castObjectId (params_id req) = None
                ∨ updateAccepts (body req) = false
                ∨ ∃ key doc, castObjectId (params_id req) = Some key
                    ∧ diagnoses st !! key = Some doc
                    ∧ applyUpdate (body req) doc = None)
           ∨ resp = Json 404 (Failure "Diagnosis not found" None)
             ∧ updateAccepts (body req) = true
             ∧ ∃ key, castObjectId (params_id req) = Some key
                 ∧ diagnoses st !! key = None)))
  ∨ (∃ key doc doc',
       validationErrors req = []
       ∧ castObjectId (params_id req) = Some key
       ∧ updateAccepts (body req) = true
       ∧ diagnoses st !! key = Some doc
       ∧ applyUpdate (body req) doc = Some doc'
       ∧ st' = {| patients := patients st; appointments := appointments st;
                  diagnoses := <[key := doc']> (diagnoses st) |}
       ∧ (populate resolve populatedOnWrite doc' = None ∧ resp = Next Rejected
          ∨ ∃ shown, populate resolve populatedOnWrite doc' = Some shown
              ∧ resp = Json 200 (Updated shown))).
Proof.
  unfold updateDiagnosis, Diagnosis_findByIdAndUpdate.
  destruct (validationErrors req) as [|err errs];
    [|intros [= <- <-]; left; split; [done|]; by left].
  cbn [bool_decide decide_rel negb].
  rewrite (bool_decide_eq_true_2 _ eq_refl). cbn [negb].
  destruct (castObjectId (params_id req)) as [key|] eqn:Hkey;
    cbn [mbind option_bind];
    [|intros [= <- <-]; left; split; [done|]; right; split; [done|]; left; by auto].
  destruct (updateAccepts (body req)) eqn:Hacc;
    [|intros [= <- <-]; left; split; [done|]; right; split; [done|]; left; by auto].
  destruct (diagnoses st !! key) as [doc|] eqn:Hdoc;
    [|intros [= <- <-]; left; split; [done|]; right; split; [done|]; right;
      by eauto].
  destruct (applyUpdate (body req) doc) as [doc'|] eqn:Happly;
    cbn [mbind option_bind];
    [|intros [= <- <-]; left; split; [done|]; right; split; [done|]; left;
      split; [done|]; right; right; by eauto].
  destruct (populate resolve populatedOnWrite doc') as [shown|] eqn:Hshown;
    intros [= <- <-]; right; exists key, doc, doc';
    repeat (split; [done|]).
  - right. by exists shown.
  - by left.
Qed.

(** X9: an update never adds or removes a diagnosis and touches no other
    document, however the store casts, validates and applies updates:
    patients and appointments are as before, the stored identifiers are the
    same, every diagnosis but the addressed one is unchanged. The answers 400
    and 404 leave the store as it was; 404 is the answer when the request and
    its update pass and no document has the identifier, while an identifier
    that cannot be cast is passed on as an error. An answer with a diagnosis
    is 200 and shows the stored document populated; the store changes in no
    other case than that one and the one in which populating the updated
    document fails, where the error is passed on although the update is
    stored. *)
Theorem update_touches_one_document (req : Request) (st st' : Store)
    (resp : Response) :
  updateDiagnosis resolve castObjectId updateAccepts applyUpdate req st = (st', resp) →
  patients st' = patients st
  ∧ appointments st' = appointments st
  ∧ dom (diagnoses st') = dom (diagnoses st)
  ∧ (∀ key, castObjectId (params_id req) ≠ Some key →
       diagnoses st' !! key = diagnoses st !! key)
  ∧ (∀ status error details, resp = Json status (Failure error details) → st' = st)
  ∧ (∀ key, validationErrors req = [] → castObjectId (params_id req) = Some key →
       updateAccepts (body req) = true → diagnoses st !! key = None →
       st' = st ∧ resp = Json 404 (Failure "Diagnosis not found" None))
  ∧ (validationErrors req = [] → castObjectId (params_id req) = None →
       st' = st ∧ resp = Next Rejected)
  ∧ (∀ status shown, resp = Json status (Updated shown) →
       status = 200
       ∧ ∃ key doc', castObjectId (params_id req) = Some key
           ∧ diagnoses st' !! key = Some doc'
           ∧ populate resolve populatedOnWrite doc' = Some shown)
  ∧ (st' ≠ st →
       ∃ key doc doc', castObjectId (params_id req) = Some key
         ∧ diagnoses st !! key = Some doc
         ∧ applyUpdate (body req) doc = Some doc'
         ∧ diagnoses st' = <[key := doc']> (diagnoses st)
         ∧ (populate resolve populatedOnWrite doc' = None ∧ resp = Next Rejected
            ∨ ∃ shown, populate resolve populatedOnWrite doc' = Some shown
                ∧ resp = Json 200 (Updated shown))).
Proof.
  intros Hupdate.
  destruct (updateDiagnosis_cases _ _ _ _ Hupdate)
    as [[-> Hresp]|(key & doc & doc' & Hval & Hkey & Hacc & Hdoc & Happly & ->
                    & Hresp)].
  - split; [reflexivity|]. split; [reflexivity|]. split; [reflexivity|].
    split; [reflexivity|]. split; [reflexivity|].
    split; [|split; [|split; [|done]]].
    + intros key Hval Hkey Hacc Hnone. split; [reflexivity|].
      destruct Hresp as [[_ Herr]|[_ [(_ & [Hc|[Hu|(k & doc & Hk & Hd & _)]])|[? _]]]];
        [done|congruence|congruence| |done].
      congruence.
    + intros Hval Hkey. split; [reflexivity|].
      destruct Hresp as [[_ Herr]|[_ [[? _]|(_ & _ & k & Hk & _)]]];
        [done|done|congruence].
    + intros status shown ->.
      destruct Hresp as [[? _]|[_ [[? _]|[? _]]]]; discriminate.
  - cbn. split; [reflexivity|]. split; [reflexivity|].
    split; [by apply dom_insert_lookup_L|].
    split; [intros k Hk; rewrite lookup_insert_ne; [done|congruence]|].
    split; [intros status error details ->;
            destruct Hresp as [[_ ?]|(? & _ & ?)]; discriminate|].
    split; [intros k _ Hk _ Hnone; congruence|].
    split; [intros _ Hnone; congruence|].
    split.
    + intros status shown ->.
      destruct Hresp as [[_ ?]|(shown' & Hshown & [= <- <-])]; [discriminate|].
      split; [reflexivity|]. exists key, doc'. by rewrite lookup_insert_eq.
    + intros _. exists key, doc, doc'. by repeat (split; [done|]).
Qed.

End Writes.

(** ** Who lists what *)

Lemma getProp_Ok_optChain (v : Value) (k : string) (x : Value) :
  getProp v k = Ok x → x = optChain v k.
Proof. destruct v; simpl; congruence. Qed.

Lemma optChain_JStr_getProp (v : Value) (k k' : string) (s : string) :
  optChain v k = JStr s → getProp v k' = Ok (optChain v k').
Proof. by destruct v. Qed.

Lemma queryFilter_keys (query : Value) (k : string) :
  k ≠ "doctor" → k ≠ "patient" → queryFilter query !! k = None.
Proof.
  intros Hd Hp. unfold queryFilter, setIfTruthy.
  repeat case_match; by simplify_map_eq.
Qed.

Section Listing.

Variable findPatientOfUser : Value → Value.

Lemma getDiagnoses_filter_start (query : Value) (req : Request) (x : Value) :
  getProp query "patient" = Ok x →
  getDiagnoses_filter findPatientOfUser query req
  = (role ← getProp (user req) "role";
     if strictEqStr role "doctor" then
       id ← getProp (user req) "id";
       mret (<["doctor" := id]> (queryFilter query))
     else if strictEqStr role "patient" then
       id ← getProp (user req) "id";
       if falsy (findPatientOfUser id) then mret (queryFilter query)
       else
         recordId ← getProp (findPatientOfUser id) "_id";
         mret (<["patient" := recordId]> (queryFilter query))
     else mret (queryFilter query)).
Proof.
  intros Hq. unfold getDiagnoses_filter, queryFilter.
  rewrite (getProp_defined _ _ "patient" _ Hq), (getProp_defined _ _ "doctor" _ Hq).
  reflexivity.
Qed.

(** X11: a doctor lists own diagnoses only: whatever doctor the query string
    names, the filter asks for the diagnoses of the authenticated user, and
    it keeps the patient that the query asks for. *)
Theorem doctor_lists_own_diagnoses (query : Value) (req : Request) (x : Value) :
  getProp query "patient" = Ok x →
  optChain (user req) "role" = JStr "doctor" →
  ∃ filter, getDiagnoses_filter findPatientOfUser query req = Ok filter
    ∧ filter !! "doctor" = Some (optChain (user req) "id")
    ∧ (∀ k, k ≠ "doctor" → filter !! k = queryFilter query !! k).
Proof.
  intros Hq Hrole. rewrite (getDiagnoses_filter_start _ _ _ Hq).
  rewrite (optChain_JStr_getProp _ _ "role" _ Hrole), Hrole.
  cbn [mbind Result_bind strictEqStr].
  rewrite (bool_decide_eq_true_2 _ eq_refl).
  rewrite (optChain_JStr_getProp _ _ "id" _ Hrole). cbn [mbind Result_bind].
  eexists. split; [reflexivity|]. split; [apply lookup_insert_eq|].
  intros k Hk. by rewrite lookup_insert_ne.
Qed.

(** X12: a patient who has a patient record lists the diagnoses of that
    record only, whatever patient the query string names. *)
Theorem patient_lists_own_diagnoses (query : Value) (req : Request) (x : Value) :
  getProp query "patient" = Ok x →
  optChain (user req) "role" = JStr "patient" →
  falsy (findPatientOfUser (optChain (user req) "id")) = false →
  ∃ filter, getDiagnoses_filter findPatientOfUser query req = Ok filter
    ∧ filter !! "patient"
      = Some (optChain (findPatientOfUser (optChain (user req) "id")) "_id")
    ∧ (∀ k, k ≠ "patient" → filter !! k = queryFilter query !! k).
Proof.
  intros Hq Hrole Hrecord. rewrite (getDiagnoses_filter_start _ _ _ Hq).
  rewrite (optChain_JStr_getProp _ _ "role" _ Hrole), Hrole.
  cbn [mbind Result_bind strictEqStr].
  rewrite (bool_decide_eq_false_2 ("patient" = "doctor")) by discriminate.
  rewrite (bool_decide_eq_true_2 _ eq_refl).
  rewrite (optChain_JStr_getProp _ _ "id" _ Hrole). cbn [mbind Result_bind].
  rewrite Hrecord.
  assert (getProp (findPatientOfUser (optChain (user req) "id")) "_id"
          = Ok (optChain (findPatientOfUser (optChain (user req) "id")) "_id"))
    as ->.
  { by destruct (findPatientOfUser _). }
  cbn [mbind Result_bind].
  eexists. split; [reflexivity|]. split; [apply lookup_insert_eq|].
  intros k Hk. by rewrite lookup_insert_ne.
Qed.

(** X13: nobody else is restricted: for a user who is neither a doctor nor
    a patient with a patient record (a nurse, an administrator, a patient
    without record) the filter is the one of the query string alone, which
    holds at most the patient and the doctor asked for. *)
Theorem others_list_what_they_ask (query : Value) (req : Request) (x : Value) :
  getProp query "patient" = Ok x →
  falsy (user req) = false →
  optChain (user req) "role" ≠ JStr "doctor" →
  optChain (user req) "role" ≠ JStr "patient"
  ∨ falsy (findPatientOfUser (optChain (user req) "id")) = true →
  getDiagnoses_filter findPatientOfUser query req = Ok (queryFilter query)
  ∧ (∀ k, k ≠ "doctor" → k ≠ "patient" → queryFilter query !! k = None)
  ∧ queryFilter query !! "patient"
    = (if falsy (optChain query "patient") then None
       else Some (optChain query "patient")).
Proof.
  intros Hq Huser Hdoc Hpat. split; [|split].
  - rewrite (getDiagnoses_filter_start _ _ _ Hq).
    assert (∀ k, getProp (user req) k = Ok (optChain (user req) k)) as Hget.
    { intros k. by destruct (user req). }
    rewrite !Hget. cbn [mbind Result_bind].
    destruct (strictEqStr (optChain (user req) "role") "doctor") eqn:Hd.
    { apply strictEqStr_true in Hd. by destruct Hdoc. }
    destruct (strictEqStr (optChain (user req) "role") "patient") eqn:Hp;
      [|reflexivity].
    apply strictEqStr_true in Hp. destruct Hpat as [Hpat|Hnone]; [done|].
    by rewrite Hnone.
  - apply queryFilter_keys.
  - unfold queryFilter, setIfTruthy.
    destruct (falsy (optChain query "doctor")),
      (falsy (optChain query "patient")); by simplify_map_eq.
Qed.

End Listing.

(** ** Who passes the middleware *)

Lemma includesValue_true (roles : list string) (v : Value) :
  includesValue roles v = true ↔ ∃ r, v = JStr r ∧ r ∈ roles.
Proof.
  destruct v as [ | | ? | ? | s | ? | ? ]; simpl;
    try (split; [discriminate|by intros (r & [=] & _)]).
  rewrite includes_elem_of, bool_decide_eq_true.
  split; [by eauto|by intros (r & [= ->] & ?)].
Qed.

Section AuthorizeFacts.

Variable numberToString : Z → string.

(** A role that is a string, or that is missing, is printed as it is. *)
Lemma templateString_JStr (r : string) :
  templateString numberToString (JStr r) = Ok r.
Proof. reflexivity. Qed.

Lemma templateString_JObj (props : gmap string Value) :
  templateString numberToString (JObj props)
  = if bool_decide (is_Some (props !! "toString")) then Throw TypeError
    else Ok "[object Object]".
Proof. reflexivity. Qed.

(** X14: [authorize] lets a request through exactly when it carries a user
    whose role is one of the listed strings, and answers 401 when no user is
    set. For every other role it answers 403 with a message that prints the
    role, a missing role as "undefined", unless the role cannot be printed:
    that is the case of an object with an own [toString] property, for which
    the middleware raises a [TypeError] instead of answering. *)
Theorem authorize_passes_listed_roles (roles : list string) (req : Request) :
  (authorize numberToString roles req = Ok None
   ↔ falsy (user req) = false
     ∧ ∃ r, optChain (user req) "role" = JStr r ∧ r ∈ roles)
  ∧ (falsy (user req) = true →
     authorize numberToString roles req
     = Ok (Some (Json 401 (Failure "User not authenticated" None))))
  ∧ (falsy (user req) = false →
     (∀ r, optChain (user req) "role" = JStr r → r ∉ roles) →
     (∀ shown, templateString numberToString (optChain (user req) "role") = Ok shown →
        authorize numberToString roles req
        = Ok (Some (Json 403 (Failure
            ("User role '" ++ shown ++ "' is not authorized to access this resource")
            None))))
     ∧ (∀ e, templateString numberToString (optChain (user req) "role") = Throw e →
          authorize numberToString roles req = Throw e))
  ∧ (∀ r, templateString numberToString (JStr r) = Ok r)
  ∧ templateString numberToString JUndefined = Ok "undefined"
  ∧ (∀ props, templateString numberToString (JObj props) = Throw TypeError
              ↔ is_Some (props !! "toString")).
Proof.
  split; [|split; [|split; [|split; [|split]]]].
  - unfold authorize. destruct (falsy (user req)).
    { split; [discriminate|by intros [[=] _]]. }
    destruct (includesValue roles (optChain (user req) "role")) eqn:Hinc; cbn [negb].
    + apply includesValue_true in Hinc as (r & Hr & Hin).
      split; [intros _; split; [done|by exists r]|done].
    + split.
      * destruct (templateString _ _); discriminate.
      * intros [_ Hr]. apply includesValue_true in Hr. congruence.
  - unfold authorize. by intros ->.
  - unfold authorize. intros -> Hnot.
    destruct (includesValue roles (optChain (user req) "role")) eqn:Hinc; cbn [negb].
    { apply includesValue_true in Hinc as (r & Hr & Hin). by destruct (Hnot r Hr). }
    split; [intros shown ->|intros e ->]; reflexivity.
  - reflexivity.
  - reflexivity.
  - intros props. rewrite templateString_JObj. case_bool_decide; naive_solver.
Qed.

End AuthorizeFacts.

Section ProtectFacts.

Variable verifySigned : string → option Value.
Variable findByPk : Value → Value.

Lemma jwt_verify_Some (token decoded : Value) :
  jwt_verify verifySigned token = Some decoded
  ↔ ∃ t, token = JStr t ∧ t ≠ "" ∧ verifySigned t = Some decoded.
Proof.
  destruct token as [ | | ? | ? | t | ? | ? ]; simpl;
    try (split; [discriminate|by intros (t' & [=] & _)]).
  case_bool_decide as Ht.
  - split; [discriminate|]. intros (t' & [= <-] & Hne & _). by destruct Hne.
  - split; [intros Hv; by exists t|]. by intros (t' & [= <-] & _ & ?).
Qed.

(** X15: [protect] calls [next()] exactly when the authorization header
    starts with "Bearer", its second field between single spaces is a
    non-empty token that verifies, and the user that the token names exists
    and has the status "active"; [req.user] is then that user. In every other
    case it answers 401, and it never does both. *)
Theorem protect_passes_active_users (authorization : option string) :
  (∀ u, reached (protect verifySigned findByPk authorization) = Some u
     ↔ ∃ header token decoded id,
         authorization = Some header
         ∧ String.prefix "Bearer" header = true
         ∧ split " " header !! 1 = Some token
         ∧ token ≠ ""
         ∧ verifySigned token = Some decoded
         ∧ getProp decoded "id" = Ok id
         ∧ u = findByPk id
         ∧ falsy u = false
         ∧ optChain u "status" = JStr "active")
  ∧ (reached (protect verifySigned findByPk authorization) = None
     ↔ ∃ error, answer (protect verifySigned findByPk authorization)
                = Some (Json 401 (Failure error None)))
  ∧ (is_Some (reached (protect verifySigned findByPk authorization)) →
     answer (protect verifySigned findByPk authorization) = None).
Proof.
  unfold protect.
  destruct authorization as [header|]; cycle 1.
  { split; [|split]; [|split; [intros _; by eexists|done]|by intros [? [=]]].
    intros u. split; [discriminate|]. by intros (? & ? & ? & ? & [=] & _). }
  destruct (bool_decide (header = "")) eqn:Hempty; cbn [negb andb].
  { apply bool_decide_eq_true in Hempty as ->.
    split; [|split]; [|split; [intros _; by eexists|done]|by intros [? [=]]].
    intros u. split; [discriminate|].
    by intros (? & ? & ? & ? & [= <-] & [=] & _). }
  destruct (String.prefix "Bearer" header) eqn:Hprefix; cycle 1.
  { split; [|split]; [|split; [intros _; by eexists|done]|by intros [? [=]]].
    intros u. split; [discriminate|].
    intros (? & ? & ? & ? & [= <-] & Hp & _). congruence. }
  set (token := default JUndefined (JStr <$> split " " header !! 1)).
  destruct (jwt_verify verifySigned token) as [decoded|] eqn:Hverify; cycle 1.
  { split; [|split]; [|split; [intros _; by eexists|done]|by intros [? [=]]].
    intros u. split; [discriminate|].
    intros (h & t & dec & id & [= <-] & _ & Ht & Hne & Hv & _).
    assert (jwt_verify verifySigned token = Some dec) as Hsome.
    { apply jwt_verify_Some. exists t. subst token. by rewrite Ht. }
    congruence. }
  apply jwt_verify_Some in Hverify as (t & Htoken & Hne & Hv).
  assert (split " " header !! 1 = Some t) as Ht.
  { subst token. destruct (split " " header !! 1); by simplify_eq/=. }
  destruct (getProp decoded "id") as [id|] eqn:Hid; cycle 1.
  { split; [|split]; [|split; [intros _; by eexists|done]|by intros [? [=]]].
    intros u. split; [discriminate|].
    intros (h & t' & dec & id & [= <-] & _ & Ht' & _ & Hv' & Hid' & _).
    congruence. }
  destruct (falsy (findByPk id)) eqn:Huser.
  { split; [|split]; [|split; [intros _; by eexists|done]|by intros [? [=]]].
    intros u. split; [discriminate|].
    intros (h & t' & dec & id' & [= <-] & _ & Ht' & _ & Hv' & Hid' & -> & Hu & _).
    congruence. }
  destruct (strictEqStr (optChain (findByPk id) "status") "active") eqn:Hactive;
    cbn [negb]; cycle 1.
  { split; [|split]; [|split; [intros _; by eexists|done]|by intros [? [=]]].
    intros u. split; [discriminate|].
    intros (h & t' & dec & id' & [= <-] & _ & Ht' & _ & Hv' & Hid' & -> & _ & Hs).
    assert (id' = id) as -> by congruence.
    apply strictEqStr_true in Hs. congruence. }
  apply strictEqStr_true in Hactive.
  assert (falsy token = false) as Hfalsy.
  { rewrite Htoken. simpl. by apply bool_decide_eq_false_2. }
  cbn [reached answer]. rewrite Hfalsy.
  split; [|split]; [|split; [discriminate|by intros [? [=]]]|done].
  intros u. split.
  - intros [= <-]. by exists header, t, decoded, id.
  - intros (h & t' & dec & id' & [= <-] & _ & Ht' & _ & Hv' & Hid' & -> & _).
    do 2 f_equal. congruence.
Qed.

End ProtectFacts.

(** ** Who reaches the handlers *)

Section RouteFacts.

Variable numberToString : Z → string.
Variable toLowerCase : string → string.
Variable schemaAccepts : gmap string Value → bool.
Variable resolve : string → string → Value → option Value.
Variable castObjectId : string → option string.
Variable updateAccepts : Value → bool.
Variable applyUpdate : Value → gmap string Value → option (gmap string Value).
Variable createDiagnosisValidation : Value → Value * list ValidationError.
Variable updateDiagnosisValidation : Value → Value * list ValidationError.
Variable expertSystemValidation : Value → Value * list ValidationError.

Lemma guarded_refuses (roles : list string) (req : Request) (st : Store)
    (rest : Request → Store → Store * Response) :
  (∀ r, optChain (user req) "role" = JStr r → r ∉ roles) →
  ∃ resp, guarded numberToString roles req st rest = (st, resp)
        ∧ turnedAway resp.
Proof.
  intros Hrole. unfold guarded, authorize, turnedAway.
  destruct (falsy (user req)); [by eauto|].
  destruct (includesValue roles (optChain (user req) "role")) eqn:Hinc;
    cbn [negb].
  { apply includesValue_true in Hinc as (r & Hr & Hin). by destruct (Hrole r Hr). }
  destruct (templateString numberToString _) as [shown|[]];
    cbn [mbind Result_bind]; by eauto.
Qed.

Lemma guarded_admits (roles : list string) (req : Request) (st : Store)
    (rest : Request → Store → Store * Response) (r : string) :
  optChain (user req) "role" = JStr r → r ∈ roles →
  guarded numberToString roles req st rest = rest req st.
Proof.
  intros Hr Hin. unfold guarded, authorize.
  assert (falsy (user req) = false) as -> by (by destruct (user req)).
  assert (includesValue roles (optChain (user req) "role") = true) as ->.
  { apply includesValue_true. by exists r. }
  reflexivity.
Qed.

(** X16: the routes [POST /] and [PUT /:id] are for doctors: for a user with
    any other role, or without a role, they leave the store as it is and
    answer 401 or 403, or raise the [TypeError] of a role that cannot be
    printed, before the validation chain and the handler run; a nurse still
    reaches the standalone assessment, and a doctor reaches all three
    handlers. A handler that is reached gets the request as its validation
    chain leaves it: the sanitized body and the recorded errors. *)
Theorem create_and_update_need_a_doctor (newId : string) (req : Request) (st : Store) :
  (optChain (user req) "role" ≠ JStr "doctor" →
   (∃ resp, post_diagnosis numberToString toLowerCase schemaAccepts resolve
              createDiagnosisValidation newId req st = (st, resp)
          ∧ turnedAway resp)
   ∧ (∃ resp, put_diagnosis numberToString resolve castObjectId updateAccepts
                applyUpdate updateDiagnosisValidation req st = (st, resp)
            ∧ turnedAway resp))
  ∧ (optChain (user req) "role" = JStr "nurse" →
     post_expert_system_assess numberToString toLowerCase expertSystemValidation req st
     = (st, getExpertSystemAssessment toLowerCase
              (validated expertSystemValidation req)))
  ∧ (optChain (user req) "role" = JStr "doctor" →
     post_diagnosis numberToString toLowerCase schemaAccepts resolve
       createDiagnosisValidation newId req st
     = createDiagnosis toLowerCase schemaAccepts resolve newId
         (validated createDiagnosisValidation req) st
     ∧ put_diagnosis numberToString resolve castObjectId updateAccepts applyUpdate
         updateDiagnosisValidation req st
       = updateDiagnosis resolve castObjectId updateAccepts applyUpdate
           (validated updateDiagnosisValidation req) st
     ∧ post_expert_system_assess numberToString toLowerCase expertSystemValidation
         req st
       = (st, getExpertSystemAssessment toLowerCase
                (validated expertSystemValidation req))).
Proof.
  split; [|split].
  - intros Hrole.
    assert (∀ r, optChain (user req) "role" = JStr r → r ∉ [ "doctor" ]) as Hnot.
    { intros r Hr Hin. apply list_elem_of_singleton in Hin as ->. by destruct Hrole. }
    split; by apply guarded_refuses.
  - intros Hnurse. unfold post_expert_system_assess.
    rewrite (guarded_admits _ _ _ _ "nurse" Hnurse); [reflexivity|].
    rewrite !elem_of_cons. auto.
  - intros Hdoctor. unfold post_diagnosis, put_diagnosis, post_expert_system_assess.
    rewrite !(guarded_admits _ _ _ _ "doctor" Hdoctor); [done|by left..].
Qed.

End RouteFacts.

(** ** Generated identifiers *)

Lemma append_cons (c : ascii) (s t : string) :
  (String c s ++ t)%string = String c (s ++ t)%string.
Proof. reflexivity. Qed.

Lemma length_append (s t : string) :
  String.length (s ++ t)%string = String.length s + String.length t.
Proof.
  induction s as [|c s IH]; [reflexivity|].
  rewrite append_cons. simpl. by rewrite IH.
Qed.

Lemma length_padStart (n : nat) (c : ascii) (s : string) :
  String.length (padStart n c s) = n `max` String.length s.
Proof.
  unfold padStart. rewrite length_append.
  assert (∀ k, String.length (string_of_list_ascii (replicate k c)) = k) as ->.
  { induction k as [|k IH]; simpl; congruence. }
  lia.
Qed.

(** A padded string determines the string, when that does not itself begin
    with the pad. *)
Lemma padStart_inj (n : nat) (c : ascii) (s t : string) :
  (∀ rest, s ≠ String c rest) → (∀ rest, t ≠ String c rest) →
  s ≠ "" → t ≠ "" →
  padStart n c s = padStart n c t → s = t.
Proof.
  intros Hs Ht Hse Hte. unfold padStart.
  generalize (n - String.length s) (n - String.length t). intros k k'.
  revert k'. induction k as [|k IH]; intros [|k']; simpl; rewrite ?append_cons.
  - done.
  - destruct s as [|a s]; [done|]. intros [= -> _]. by destruct (Hs s).
  - destruct t as [|a t]; [done|]. intros [= <- _]. by destruct (Ht t).
  - intros [= Heq]. by apply (IH k').
Qed.

Lemma pretty_N_char_nonzero (x : N) :
  (0 < x < 10)%N → pretty_N_char x ≠ "0"%char.
Proof.
  intros [Hpos Hdigit]. unfold pretty_N_char.
  repeat case_match; solve [discriminate | lia].
Qed.

(** The decimal form of a positive number begins with a digit other than 0. *)
Lemma pretty_N_go_head (x : N) (s : string) :
  (0 < x)%N → ∃ c rest, pretty_N_go x s = String c rest ∧ c ≠ "0"%char.
Proof.
  revert s. induction (N.lt_wf_0 x) as [x _ IH]. intros s Hx.
  rewrite pretty_N_go_step by done.
  destruct (decide (x < 10)%N) as [Hsmall|Hbig].
  - rewrite N.div_small, N.mod_small, pretty_N_go_0 by done.
    do 2 eexists. split; [reflexivity|]. by apply pretty_N_char_nonzero.
  - apply IH; [apply N.div_lt; lia|]. apply N.div_str_pos. lia.
Qed.

Lemma pretty_N_head (x : N) :
  (0 < x)%N → ∃ c rest, pretty x = String c rest ∧ c ≠ "0"%char.
Proof.
  intros Hx. unfold pretty, pretty_N. case_decide; [lia|].
  by apply pretty_N_go_head.
Qed.

Lemma pretty_N_go_length_le (k : nat) (x : N) (s : string) :
  (x < 10 ^ N.of_nat k)%N →
  String.length (pretty_N_go x s) ≤ k + String.length s.
Proof.
  revert x s. induction k as [|k IH]; intros x s Hx.
  - assert (x = 0%N) as -> by (simpl in Hx; lia). by rewrite pretty_N_go_0.
  - destruct (decide (x = 0)%N) as [->|Hpos]; [rewrite pretty_N_go_0; lia|].
    rewrite pretty_N_go_step by lia.
    etrans; [apply IH|simpl; lia].
    apply N.Div0.div_lt_upper_bound.
    rewrite Nat2N.inj_succ, N.pow_succ_r' in Hx. lia.
Qed.

Lemma pretty_N_go_length_ge (k : nat) (x : N) (s : string) :
  (10 ^ N.of_nat k ≤ x)%N →
  S k + String.length s ≤ String.length (pretty_N_go x s).
Proof.
  revert x s. induction k as [|k IH]; intros x s Hx.
  - simpl in Hx. rewrite pretty_N_go_step by lia.
    assert (∀ y t, String.length t ≤ String.length (pretty_N_go y t)) as Hmono.
    { intros y. induction (N.lt_wf_0 y) as [y _ IHy]. intros t.
      destruct (decide (y = 0)%N) as [->|?]; [by rewrite pretty_N_go_0|].
      rewrite pretty_N_go_step by lia.
      etrans; [|apply IHy; apply N.div_lt; lia]. simpl. lia. }
    etrans; [|apply Hmono]. simpl. lia.
  - assert (0 < x)%N as Hpos.
    { pose proof (N.pow_nonzero 10 (N.of_nat (S k))). lia. }
    rewrite pretty_N_go_step by done.
    etrans; [|apply IH]; [simpl; lia|].
    rewrite Nat2N.inj_succ, N.pow_succ_r' in Hx.
    apply N.div_le_lower_bound; lia.
Qed.

(** The padded decimal of the number of a document determines the count. *)
Lemma padded_number_inj (count count' : N) :
  padStart 6 "0" (pretty (count + 1)%N) = padStart 6 "0" (pretty (count' + 1)%N) →
  count = count'.
Proof.
  intros Hpad.
  destruct (pretty_N_head (count + 1)) as (c & rest & Hc & Hc0); [lia|].
  destruct (pretty_N_head (count' + 1)) as (c' & rest' & Hc' & Hc0'); [lia|].
  apply padStart_inj in Hpad.
  - apply (inj pretty) in Hpad. lia.
  - intros r. rewrite Hc. by intros [= -> _].
  - intros r. rewrite Hc'. by intros [= -> _].
  - by rewrite Hc.
  - by rewrite Hc'.
Qed.



(** ** Instances of the further properties *)

Lemma assessment_monotone_witness :
  ∃ a a',
    assess toLowerCase_latin1 Malaria
      (report [ symptomOnly "fever"; symptomOnly "chills" ]) JUndefined = Ok a
    ∧ assess toLowerCase_latin1 Malaria
        (report [ symptomOnly "fever"; symptomOnly "nausea"; symptomOnly "chills" ])
        JUndefined = Ok a'
    ∧ score a ≤ score a'
    ∧ tierRank (riskLevel a) ≤ tierRank (riskLevel a').
Proof.
  destruct (assessment_monotone toLowerCase_latin1 Malaria
              [ symptomOnly "fever"; symptomOnly "chills" ]
              [ symptomOnly "fever"; symptomOnly "nausea"; symptomOnly "chills" ]
              JUndefined)
    as (a & a' & a0 & Ha & Ha' & _ & Hs & Ht & _).
  { apply sublist_skip, sublist_cons, sublist_skip, sublist_nil. }
  by exists a, a'.
Defined.

Lemma assessment_endpoint_outcomes_witness :
  getExpertSystemAssessment toLowerCase_latin1
    (assessing (JArr [ entry (symptomOnly "fever"); JStr "chills" ]) JUndefined)
  = Next (Raised TypeError).
Proof.
  apply (assessment_endpoint_outcomes toLowerCase_latin1
           (assessing (JArr [ entry (symptomOnly "fever"); JStr "chills" ]) JUndefined)
           (JArr [ entry (symptomOnly "fever"); JStr "chills" ]) eq_refl).
  do 2 eexists. split; [reflexivity|]. right. left. reflexivity.
Defined.

Lemma creation_agrees_with_assessment_witness :
  ∃ m t,
    getExpertSystemAssessment toLowerCase_latin1 askingTheSame
    = Json 200 (Assessed m t)
    ∧ res_riskLevel m = "high" ∧ res_score m = 5.
Proof.
  destruct (creation_agrees_with_assessment toLowerCase_latin1 passesDiagnosisSchema
              shownById "64d2f0a1b2c3d4e5f6a7b8c9" creating askingTheSame clinic
              (createDiagnosis toLowerCase_latin1 passesDiagnosisSchema shownById
                 "64d2f0a1b2c3d4e5f6a7b8c9" creating clinic).1
              201
              match (createDiagnosis toLowerCase_latin1 passesDiagnosisSchema shownById
                       "64d2f0a1b2c3d4e5f6a7b8c9" creating clinic).2 with
              | Json _ (Created shown _ _) => shown
              | _ => ∅
              end
              {| rec_riskLevel := "high"; rec_score := 5;
                 rec_recommendation :=
                   "Immediate malaria testing and treatment recommended" |}
              {| rec_riskLevel := "low"; rec_score := 2;
                 rec_recommendation := "Low typhoid risk" |}
              fiveSymptoms)
    as (m & t & Hresp & Hm & Hs & _); try reflexivity; [discriminate|].
  exists m, t. by rewrite Hm, Hs.
Defined.

Lemma creation_writes_one_document_witness :
  patients (createDiagnosis toLowerCase_latin1 passesDiagnosisSchema shownById
              "64d2f0a1b2c3d4e5f6a7b8c9" creating clinic).1
  = patients clinic
  ∧ (createDiagnosis toLowerCase_latin1 passesDiagnosisSchema shownById
       "64d2f0a1b2c3d4e5f6a7b8c9" invalid_severity clinic).1 = clinic.
Proof.
  split.
  - apply (creation_writes_one_document toLowerCase_latin1 passesDiagnosisSchema
             shownById "64d2f0a1b2c3d4e5f6a7b8c9" creating clinic _ _
             (surjective_pairing _)).
  - destruct (creation_writes_one_document toLowerCase_latin1 passesDiagnosisSchema
                shownById "64d2f0a1b2c3d4e5f6a7b8c9" invalid_severity clinic _ _
                (surjective_pairing _))
      as (_ & _ & _ & Hfailure & _).
    eapply Hfailure. reflexivity.
Defined.

(** The document of [creating] is stored even when populating it fails and
    the error handler answers. *)
Example stored_though_answered_with_an_error :
  ∃ st1 data,
    createDiagnosis toLowerCase_latin1 passesDiagnosisSchema unreachable
      "64d2f0a1b2c3d4e5f6a7b8c9" creating clinic
    = (st1, Next Rejected)
    ∧ diagnoses st1 !! "64d2f0a1b2c3d4e5f6a7b8c9" = Some data
    ∧ diagnoses clinic !! "64d2f0a1b2c3d4e5f6a7b8c9" = None.
Proof.
  do 2 eexists. split; [vm_compute; reflexivity|].
  split; [vm_compute; reflexivity|reflexivity].
Qed.

Lemma update_touches_one_document_witness :
  (updateDiagnosis shownById hexObjectId passesUpdateValidators setFields
     updating clinic).1 = clinic
  ∧ (updateDiagnosis shownById hexObjectId passesUpdateValidators setFields
       updating clinic).2
    = Json 404 (Failure "Diagnosis not found" None).
Proof.
  destruct (update_touches_one_document shownById hexObjectId passesUpdateValidators
              setFields updating clinic _ _ (surjective_pairing _))
    as (_ & _ & _ & _ & _ & Hunknown & _).
  apply (Hunknown "64d2f0a1b2c3d4e5f6a7b8c9"); reflexivity.
Defined.



Lemma doctor_lists_own_diagnoses_witness :
  ∃ filter,
    getDiagnoses_filter onePatientRecord askingForOthers (requestOf doctorUser)
    = Ok filter
    ∧ filter !! "doctor" = Some (JStr "507f1f77bcf86cd799439012").
Proof.
  destruct (doctor_lists_own_diagnoses onePatientRecord askingForOthers
              (requestOf doctorUser) (JStr "507f1f77bcf86cd799439011")
              eq_refl eq_refl)
    as (filter & Hf & Hd & _).
  by exists filter.
Defined.

Lemma patient_lists_own_diagnoses_witness :
  ∃ filter,
    getDiagnoses_filter onePatientRecord askingForOthers (requestOf patientUser)
    = Ok filter
    ∧ filter !! "patient" = Some (JStr "507f1f77bcf86cd799439021").
Proof.
  destruct (patient_lists_own_diagnoses onePatientRecord askingForOthers
              (requestOf patientUser) (JStr "507f1f77bcf86cd799439011")
              eq_refl eq_refl eq_refl)
    as (filter & Hf & Hp & _).
  by exists filter.
Defined.

Lemma others_list_what_they_ask_witness :
  getDiagnoses_filter onePatientRecord askingForOthers (requestOf nurseUser)
  = Ok (queryFilter askingForOthers)
  ∧ queryFilter askingForOthers !! "patient"
    = Some (JStr "507f1f77bcf86cd799439011").
Proof.
  destruct (others_list_what_they_ask onePatientRecord askingForOthers
              (requestOf nurseUser) (JStr "507f1f77bcf86cd799439011")
              eq_refl eq_refl)
    as (Hf & _ & Hp); [discriminate|left; discriminate|].
  split; [exact Hf|exact Hp].
Defined.

(** ** The guard of patient data *)

Section GuardFacts.

Variable numberToString : Z → string.

(** X19: [canAccessPatient] stops patients only: every user with another
    role, or with none, passes. A patient passes exactly when the [patientId]
    of the route is the string that [_id.toString()] gives for the user's own
    [_id], and is answered 403 for every other [patientId]; when [_id] has no
    string (a missing [_id], an object with an own [toString] property) the
    answer is 500, as it is when no user is set. On a route without the
    parameter a patient never passes. *)
Theorem patient_data_guard (patientId : Value) (req : Request) :
  (user req ≠ JUndefined → user req ≠ JNull →
   optChain (user req) "role" ≠ JStr "patient" →
   canAccessPatient numberToString patientId req = None)
  ∧ (user req = JUndefined ∨ user req = JNull →
     canAccessPatient numberToString patientId req
     = Some (Json 500 (Failure "Server error in authorization check" None)))
  ∧ (optChain (user req) "role" = JStr "patient" →
     (∀ own, toStringMethod numberToString (optChain (user req) "_id") = Ok own →
        canAccessPatient numberToString patientId req
        = if strictEqStr patientId own then None
          else Some (Json 403
                 (Failure "Not authorized to access this patient data" None)))
     ∧ (∀ e, toStringMethod numberToString (optChain (user req) "_id") = Throw e →
          canAccessPatient numberToString patientId req
          = Some (Json 500 (Failure "Server error in authorization check" None)))
     ∧ (canAccessPatient numberToString patientId req = None
        ↔ ∃ own, toStringMethod numberToString (optChain (user req) "_id") = Ok own
               ∧ patientId = JStr own)
     ∧ canAccessPatient numberToString JUndefined req ≠ None)
  ∧ (∀ s, toStringMethod numberToString (JStr s) = Ok s)
  ∧ toStringMethod numberToString JUndefined = Throw TypeError
  ∧ (∀ props, toStringMethod numberToString (JObj props) = Throw TypeError
              ↔ is_Some (props !! "toString")).
Proof.
  split; [|split; [|split; [|split; [|split]]]].
  - unfold canAccessPatient. intros Hu Hn Hrole.
    assert (getProp (user req) "role" = Ok (optChain (user req) "role")) as ->.
    { by destruct (user req). }
    cbn [mbind Result_bind].
    destruct (strictEqStr (optChain (user req) "role") "admin"); [reflexivity|].
    destruct (strictEqStr (optChain (user req) "role") "patient") eqn:Hp.
    { apply strictEqStr_true in Hp. by destruct Hrole. }
    cbn [mbind Result_bind mret Result_ret]. by destruct (includesValue _ _).
  - unfold canAccessPatient. by intros [-> | ->].
  - intros Hrole. unfold canAccessPatient.
    rewrite !(optChain_JStr_getProp _ _ _ _ Hrole), Hrole.
    cbn [mbind Result_bind strictEqStr].
    rewrite (bool_decide_eq_false_2 ("patient" = "admin")) by discriminate.
    rewrite (bool_decide_eq_true_2 _ eq_refl).
    cbn [includesValue includes].
    destruct (toStringMethod numberToString (optChain (user req) "_id"))
      as [own|e] eqn:Hown; cbn [mbind Result_bind mret Result_ret].
    + split; [|split; [|split]].
      * intros own' [= <-]. by destruct (strictEqStr patientId own).
      * discriminate.
      * destruct (strictEqStr patientId own) eqn:Heq; cbn [negb].
        -- apply strictEqStr_true in Heq. split; [by eauto|done].
        -- split; [discriminate|]. intros (own' & [= <-] & Hp).
           apply strictEqStr_true in Hp. congruence.
      * discriminate.
    + split; [|split; [|split]]; [discriminate|done| |discriminate].
      split; [discriminate|]. by intros (own' & [=] & _).
  - reflexivity.
  - reflexivity.
  - intros props. unfold toStringMethod. rewrite templateString_JObj.
    case_bool_decide; naive_solver.
Qed.

End GuardFacts.

(** ** What creation stores, against the schema *)

Section Schema.

Variable toLowerCase : string → string.
Variable schemaAccepts : gmap string Value → bool.
Variable resolve : string → string → Value → option Value.

(** X8: the tier that diagnosis creation writes always fits the schema:
    whatever the request, a created diagnosis has in each of its two
    assessment sub-objects a [riskLevel] among the values that the schema
    admits for it. *)
Theorem stored_tier_fits_schema (newId : string) (req : Request) (st st' : Store)
    (status : nat) (data : gmap string Value) (m t : Recommendation) (d : Disease) :
  createDiagnosis toLowerCase schemaAccepts resolve newId req st
  = (st', Json status (Created data m t)) →
  ∃ sub tier, data !! assessmentKey d = Some (JObj sub)
    ∧ sub !! "riskLevel" = Some (JStr tier)
    ∧ tier ∈ riskLevelEnum.
Proof.
  intros Hcreate.
  destruct (createDiagnosis_cases _ _ _ _ _ _ _ _ Hcreate)
    as [[_ Hnot]|(data' & es & p & a & doc & _ & _
                  & Hval & Hpat & Hpin & Happ & Hain & Hsym & Hdoc & _)].
  { destruct Hnot as [?|[[e ?]|(? & ? & ? & ? & _)]]; discriminate. }
  rewrite (createDiagnosis_created toLowerCase schemaAccepts resolve newId req st es
             p a doc Hval Hpat Hpin Happ Hain Hsym Hdoc) in Hcreate.
  cbv zeta in Hcreate. destruct (schemaAccepts _); [|discriminate].
  destruct (populate _ _ _) as [shown|] eqn:Hshown; [|discriminate].
  injection Hcreate as _ _ <- _ _.
  do 2 eexists. split.
  { rewrite (populate_other _ _ _ _ _ Hshown);
      [apply diagnosisData_assessment|].
    apply populatedOnWrite_other; by destruct d. }
  split; [apply lookup_insert_eq|].
  destruct d; apply tierOf_tiers.
Qed.

End Schema.

(** ** Sequences of requests *)

Section Sequences.

Variable numberToString : Z → string.
Variable toLowerCase : string → string.
Variable schemaAccepts : gmap string Value → bool.
Variable resolve : string → string → Value → option Value.
Variable castObjectId : string → option string.
Variable updateAccepts : Value → bool.
Variable applyUpdate : Value → gmap string Value → option (gmap string Value).
Variable createDiagnosisValidation : Value → Value * list ValidationError.
Variable updateDiagnosisValidation : Value → Value * list ValidationError.
Variable expertSystemValidation : Value → Value * list ValidationError.

Lemma guarded_cases (roles : list string) (req : Request) (st : Store)
    (rest : Request → Store → Store * Response) :
  (guarded numberToString roles req st rest).1 = st
  ∨ guarded numberToString roles req st rest = rest req st.
Proof. unfold guarded. destruct (authorize _ _ _) as [[?|]|]; auto. Qed.

Lemma same_store_step (st : Store) (created : gset string) :
  patients st = patients st
  ∧ appointments st = appointments st
  ∧ dom (diagnoses st) ⊆ dom (diagnoses st) ∪ created
  ∧ dom (diagnoses st) ⊆ dom (diagnoses st).
Proof. repeat split; [apply union_subseteq_l|done]. Qed.

(** One request: patients and appointments stay, no diagnosis disappears,
    and a new identifier is the one of a creation. *)
Lemma serve_step (st : Store) (op : Operation) :
  let st' :=
    (serve numberToString toLowerCase schemaAccepts resolve castObjectId
       updateAccepts applyUpdate createDiagnosisValidation
       updateDiagnosisValidation expertSystemValidation st op).1 in
  patients st' = patients st
  ∧ appointments st' = appointments st
  ∧ dom (diagnoses st')
    ⊆ dom (diagnoses st) ∪
      match op with PostDiagnosis newId _ => {[ newId ]} | _ => ∅ end
  ∧ dom (diagnoses st) ⊆ dom (diagnoses st').
Proof.
  cbv zeta. destruct op as [newId req|req|req|req]; cbn [serve].
  - unfold post_diagnosis.
    destruct (guarded_cases [ "doctor" ] req st (λ req st,
      createDiagnosis toLowerCase schemaAccepts resolve newId
        (validated createDiagnosisValidation req) st)) as [->| ->];
      [apply same_store_step|].
    destruct (createDiagnosis toLowerCase schemaAccepts resolve newId
                (validated createDiagnosisValidation req) st)
      as [st' resp] eqn:Hcreate.
    destruct (createDiagnosis_cases _ _ _ _ _ _ _ _ Hcreate)
      as [[-> _]|(data & es & p & a & doc & _ & -> & _)];
      [apply same_store_step|].
    cbn. rewrite dom_insert_L. repeat split.
    + by rewrite (comm_L (∪)).
    + apply union_subseteq_r.
  - unfold put_diagnosis.
    destruct (guarded_cases [ "doctor" ] req st (λ req st,
      updateDiagnosis resolve castObjectId updateAccepts applyUpdate
        (validated updateDiagnosisValidation req) st)) as [->| ->];
      [apply same_store_step|].
    destruct (updateDiagnosis resolve castObjectId updateAccepts applyUpdate
                (validated updateDiagnosisValidation req) st)
      as [st' resp] eqn:Hupdate.
    destruct (updateDiagnosis_cases _ _ _ _ _ _ _ _ Hupdate)
      as [(-> & _)|(key & doc & doc' & _ & _ & _ & Hdoc & _ & -> & _)];
      [apply same_store_step|].
    cbn. rewrite (dom_insert_lookup_L _ _ _ (mk_is_Some _ _ Hdoc)).
    apply same_store_step.
  - unfold post_expert_system_assess.
    destruct (guarded_cases [ "doctor"; "nurse" ] req st (λ req st,
      (st, getExpertSystemAssessment toLowerCase
             (validated expertSystemValidation req)))) as [->| ->];
      apply same_store_step.
  - apply same_store_step.
Qed.

Lemma serve_without_doctor (st : Store) (op : Operation) :
  optChain (user (requestIn op)) "role" ≠ JStr "doctor" →
  (serve numberToString toLowerCase schemaAccepts resolve castObjectId
     updateAccepts applyUpdate createDiagnosisValidation
     updateDiagnosisValidation expertSystemValidation st op).1 = st.
Proof.
  intros Hrole. destruct op as [newId req|req|req|req]; cbn [serve requestIn] in *.
  - unfold post_diagnosis.
    destruct (guarded_refuses numberToString [ "doctor" ] req st (λ req st,
      createDiagnosis toLowerCase schemaAccepts resolve newId
        (validated createDiagnosisValidation req) st)) as (resp & -> & _);
      [|reflexivity].
    intros r Hr Hin. apply list_elem_of_singleton in Hin as ->. by destruct Hrole.
  - unfold put_diagnosis.
    destruct (guarded_refuses numberToString [ "doctor" ] req st (λ req st,
      updateDiagnosis resolve castObjectId updateAccepts applyUpdate
        (validated updateDiagnosisValidation req) st)) as (resp & -> & _);
      [|reflexivity].
    intros r Hr Hin. apply list_elem_of_singleton in Hin as ->. by destruct Hrole.
  - unfold post_expert_system_assess, guarded.
    by destruct (authorize _ _ _) as [[?|]|].
  - reflexivity.
Qed.

(** X20: over any sequence of requests to the routes [POST /], [PUT /:id],
    [POST /expert-system/assess] and [GET /:id] the patients and appointments
    stay as they are, no diagnosis ever disappears, every new identifier is
    the one of a creation request of the sequence, and a sequence without any
    request of a doctor leaves the store exactly as it was. *)
Theorem requests_keep_the_store (ops : list Operation) (st : Store) :
  let st' :=
    serveAll numberToString toLowerCase schemaAccepts resolve castObjectId
      updateAccepts applyUpdate createDiagnosisValidation
      updateDiagnosisValidation expertSystemValidation st ops in
  patients st' = patients st
  ∧ appointments st' = appointments st
  ∧ dom (diagnoses st) ⊆ dom (diagnoses st')
  ∧ (∀ id, id ∈ dom (diagnoses st') →
       id ∈ dom (diagnoses st) ∨ ∃ req, PostDiagnosis id req ∈ ops)
  ∧ (Forall (λ op, optChain (user (requestIn op)) "role" ≠ JStr "doctor") ops →
     st' = st).
Proof.
  cbv zeta. revert st. induction ops as [|op ops IH]; intros st.
  { cbn. repeat split; try done. by left. }
  set (st1 := (serve numberToString toLowerCase schemaAccepts resolve castObjectId
     updateAccepts applyUpdate createDiagnosisValidation
     updateDiagnosisValidation expertSystemValidation st op).1).
  change (serveAll numberToString toLowerCase schemaAccepts resolve castObjectId
            updateAccepts applyUpdate createDiagnosisValidation
            updateDiagnosisValidation expertSystemValidation st (op :: ops))
    with (serveAll numberToString toLowerCase schemaAccepts resolve castObjectId
            updateAccepts applyUpdate createDiagnosisValidation
            updateDiagnosisValidation expertSystemValidation st1 ops).
  destruct (IH st1) as (Hp & Ha & Hsub & Hnew & Hidle).
  destruct (serve_step st op) as (Hp1 & Ha1 & Hnew1 & Hsub1).
  fold st1 in Hp1, Ha1, Hnew1, Hsub1.
  split; [congruence|]. split; [congruence|].
  split; [by etrans|]. split.
  - intros id Hid. destruct (Hnew id Hid) as [Hold|[req Hin]].
    + apply Hnew1 in Hold. apply elem_of_union in Hold as [?|Hcreated]; [by left|].
      right. destruct op as [newId req|req|req|req];
        try (by apply elem_of_empty in Hcreated).
      apply elem_of_singleton in Hcreated as ->. exists req. left.
    + right. exists req. by right.
  - intros Hall. apply Forall_cons in Hall as [Hop Hops].
    rewrite (Hidle Hops). by apply serve_without_doctor.
Qed.

End Sequences.

Lemma stored_tier_fits_schema_witness :
  ∃ sub tier,
    match (createDiagnosis toLowerCase_latin1 passesDiagnosisSchema shownById
             "64d2f0a1b2c3d4e5f6a7b8c9" creating clinic).2 with
    | Json _ (Created shown _ _) => shown
    | _ => ∅
    end !! "typhoidAssessment" = Some (JObj sub)
    ∧ sub !! "riskLevel" = Some (JStr tier)
    ∧ tier ∈ riskLevelEnum.
Proof.
  apply (stored_tier_fits_schema toLowerCase_latin1 passesDiagnosisSchema shownById
           "64d2f0a1b2c3d4e5f6a7b8c9" creating clinic
           (createDiagnosis toLowerCase_latin1 passesDiagnosisSchema shownById
              "64d2f0a1b2c3d4e5f6a7b8c9" creating clinic).1
           201 _
           {| rec_riskLevel := "high"; rec_score := 5;
              rec_recommendation :=
                "Immediate malaria testing and treatment recommended" |}
           {| rec_riskLevel := "low"; rec_score := 2;
              rec_recommendation := "Low typhoid risk" |}
           Typhoid).
  reflexivity.
Defined.

Lemma protect_passes_active_users_witness :
  reached (protect oneToken oneUser (Some "Bearership header.payload.signature"))
  = Some nurseUser
  ∧ ∃ error,
      answer (protect oneToken oneUser (Some "Bearer  header.payload.signature"))
      = Some (Json 401 (Failure error None)).
Proof.
  split.
  - apply (proj1 (protect_passes_active_users oneToken oneUser
                    (Some "Bearership header.payload.signature"))).
    exists "Bearership header.payload.signature", "header.payload.signature",
      (JObj {[ "id" := JNum 7 ]}), (JNum 7).
    repeat split; try reflexivity. discriminate.
  - apply (proj1 (proj2 (protect_passes_active_users oneToken oneUser
                           (Some "Bearer  header.payload.signature")))).
    reflexivity.
Defined.
